(** * nba_stats: player lookup, career averages, recent games and StatFormula

    A shallow embedding of [nba_stats.py] and the properties of its
    retrieval layer ([NBAData]), of its computation layer ([StatFormula])
    and of the sentence its driver prints.

    Conventions of the embedding.
    - Python [str] is [string]: a sequence of bytes, UTF-8 for what is
      printed.  [str.lower], [str.upper] and [str.title] map the ASCII
      letters and leave every other byte alone.
    - A floating-point number is a [float]: an exact rational, the two
      infinities or NaN.  Rounding error of the binary64 format, overflow
      and the sign of zero are outside the model.  Two things follow for
      the statements.  A quotient that lies midway between two hundredths
      (23/40) is rounded by the program on its binary64 value, which can lie
      on either side: the statements about [round(_, 2)] place the result on
      the grid of hundredths, at most half a hundredth from the exact
      quotient, and do not say which way such a tie goes.  And a sum is
      exact in binary64 only on numbers it can hold without rounding: where
      a statement depends on the sum of a column being exact, it is about a
      column of counts ([within_limit]), which is what a box score holds.
    - An exception is its class and the text [str(e)] gives.
    - The stats provider is a record of responses ([NbaApi.Provider]); every
      call made to it is appended to a trace, so that "no call was made" is a
      statement about the trace. *)

From Stdlib Require Import ZArith QArith Qabs Bool List String Ascii DecimalString Lia.
From Stdlib Require Import Permutation.
Import ListNotations.

Local Open Scope string_scope.
Local Open Scope list_scope.

(** ** Python built-ins *)

Module Py.

(** *** Strings *)

Definition is_upper (c : ascii) : bool :=
  let n := nat_of_ascii c in (65 <=? n)%nat && (n <=? 90)%nat.

Definition is_lower (c : ascii) : bool :=
  let n := nat_of_ascii c in (97 <=? n)%nat && (n <=? 122)%nat.

Definition to_lower (c : ascii) : ascii :=
  if is_upper c then ascii_of_nat (nat_of_ascii c + 32) else c.

Definition to_upper (c : ascii) : ascii :=
  if is_lower c then ascii_of_nat (nat_of_ascii c - 32) else c.

(** [s.lower()] *)
Fixpoint lower (s : string) : string :=
  match s with
  | EmptyString => EmptyString
  | String c s' => String (to_lower c) (lower s')
  end.

(** [s.upper()] *)
Fixpoint upper (s : string) : string :=
  match s with
  | EmptyString => EmptyString
  | String c s' => String (to_upper c) (upper s')
  end.

(** [s.title()]: a cased character that follows an uncased one is put in
    upper case, a cased character that follows a cased one in lower case. *)
Fixpoint title_from (previous_is_cased : bool) (s : string) : string :=
  match s with
  | EmptyString => EmptyString
  | String c s' =>
      if is_lower c then
        String (if previous_is_cased then c else to_upper c) (title_from true s')
      else if is_upper c then
        String (if previous_is_cased then to_lower c else c) (title_from true s')
      else String c (title_from false s')
  end.

Definition title (s : string) : string := title_from false s.

(** [repr(s)] of a string without quotes, backslashes or control bytes. *)
Definition repr_str (s : string) : string := "'" ++ s ++ "'".

(** *** Exceptions *)

Inductive exn_class : Set :=
  | ValueError | RuntimeError | KeyError | TypeError | IndexError | OtherError.

Record exn : Set := Exn { class_of : exn_class; str : string }.

Inductive result (A : Type) : Type :=
  | Ok (a : A)
  | Raise (e : exn).
Arguments Ok {A} a.
Arguments Raise {A} e.

Definition is_error {A} (r : result A) : bool :=
  match r with Ok _ => false | Raise _ => true end.

(** *** Floating-point numbers *)

Inductive float : Set :=
  | NaN
  | PInf
  | NInf
  | Fin (q : Q).

Definition of_Z (z : Z) : float := Fin (inject_Z z).
Definition of_nat (n : nat) : float := of_Z (Z.of_nat n).

(** [x >= y]: false as soon as one side is NaN. *)
Definition fge (x y : float) : bool :=
  match x, y with
  | NaN, _ | _, NaN => false
  | PInf, _ => true
  | _, NInf => true
  | NInf, _ => false
  | _, PInf => false
  | Fin a, Fin b => Qle_bool b a
  end.

(** [x == y] *)
Definition feqb (x y : float) : bool :=
  match x, y with
  | PInf, PInf | NInf, NInf => true
  | Fin a, Fin b => Qeq_bool a b
  | _, _ => false
  end.

Definition fneg (x : float) : float :=
  match x with
  | NaN => NaN
  | PInf => NInf
  | NInf => PInf
  | Fin q => Fin (- q)
  end.

(** [x + y] *)
Definition fadd (x y : float) : float :=
  match x, y with
  | NaN, _ | _, NaN => NaN
  | PInf, NInf | NInf, PInf => NaN
  | PInf, _ | _, PInf => PInf
  | NInf, _ | _, NInf => NInf
  | Fin a, Fin b => Fin (a + b)
  end.

(** [x * y] *)
Definition fmul (x y : float) : float :=
  match x, y with
  | NaN, _ | _, NaN => NaN
  | Fin a, Fin b => Fin (a * b)
  | Fin a, inf | inf, Fin a =>
      match (a ?= 0)%Q with
      | Eq => NaN
      | Gt => inf
      | Lt => fneg inf
      end
  | PInf, PInf | NInf, NInf => PInf
  | PInf, NInf | NInf, PInf => NInf
  end.

(** [x / y] as numpy divides: a zero divisor gives NaN for 0/0 and an
    infinity otherwise, with a warning and no exception. *)
Definition fdiv (x y : float) : float :=
  match x, y with
  | NaN, _ | _, NaN => NaN
  | Fin a, Fin b =>
      if Qeq_bool b 0 then
        match (a ?= 0)%Q with
        | Eq => NaN
        | Gt => PInf
        | Lt => NInf
        end
      else Fin (a / b)
  | Fin _, _ => Fin 0
  | inf, Fin b => if Qle_bool 0 b then inf else fneg inf
  | _, _ => NaN
  end.

(** The integer nearest to [n / d] for [d > 0], a tie going to the even
    neighbour: the floor of [n / d + 1/2], minus one when the sum is a whole
    odd number. *)
Definition half_even (n d : Z) : Z :=
  let a := (2 * n + d)%Z in
  let b := (2 * d)%Z in
  let f := (a / b)%Z in
  if ((a mod b =? 0)%Z && Z.odd f)%bool then (f - 1)%Z else f.

(** [numpy.rint] on a rational. *)
Definition rint (q : Q) : Z := half_even (Qnum q) (Zpos (Qden q)).

Fixpoint pow10 (ndigits : nat) : positive :=
  match ndigits with
  | O => 1%positive
  | S n => (10 * pow10 n)%positive
  end.

(** [round(q, ndigits)] for [ndigits >= 0]: scale by [10**ndigits], round to
    the nearest integer with ties to even, scale back. *)
Definition round_Q (q : Q) (ndigits : nat) : Q :=
  Qred (rint (q * inject_Z (Zpos (pow10 ndigits))) # pow10 ndigits).

(** [round(x, ndigits)] *)
Definition round (x : float) (ndigits : nat) : float :=
  match x with
  | Fin q => Fin (round_Q q ndigits)
  | other => other
  end.

End Py.

(** ** pandas: tables of cells *)

Module Pd.
Import Py.

(** A cell holds a number (dtype int64 or float64, a missing value being NaN)
    or a Python string (dtype object). *)
Inductive cell : Set :=
  | Num (x : float)
  | Str (s : string).

Definition Series : Set := list cell.

(** A frame is a header of distinct labels and its records, in order.  Every
    record is as long as the header; a position a record lacks reads as NaN. *)
Record DataFrame : Set := mkDataFrame {
  columns : list string;
  rows : list (list cell)
}.

(** What the embedding takes from the library as it is: how [to_numeric]
    reads the text of a number, the texts of the exceptions that pandas and
    the interpreter raise, and the mean of a column that holds strings
    (whose outcome changes with the version of pandas). *)
Class Library : Type := {
  parse_numeric : string -> option float;
  not_in_index : list string -> list string -> string;
  unsupported_operand : string -> string;
  object_mean : Series -> result float
}.

(** [len(df)] *)
Definition len (df : DataFrame) : nat := List.length (rows df).

(** [df.empty]: no column or no row. *)
Definition empty (df : DataFrame) : bool :=
  match columns df, rows df with
  | [], _ | _, [] => true
  | _, _ => false
  end.

Fixpoint index_of (label : string) (labels : list string) : option nat :=
  match labels with
  | [] => None
  | l :: ls => if String.eqb l label then Some O else option_map S (index_of label ls)
  end.

Definition has_column (df : DataFrame) (label : string) : bool :=
  match index_of label (columns df) with Some _ => true | None => false end.

Definition cell_at (i : nat) (record : list cell) : cell := nth i record (Num NaN).

(** [df[label]]: the column, or KeyError whose text is the repr of the label. *)
Definition getitem (df : DataFrame) (label : string) : result Series :=
  match index_of label (columns df) with
  | Some i => Ok (map (cell_at i) (rows df))
  | None => Raise (Exn KeyError (repr_str label))
  end.

(** [df[[l1, ..., ln]]]: the frame of these columns, in this order. *)
Definition select `{Library} (df : DataFrame) (labels : list string) : result DataFrame :=
  if forallb (has_column df) labels then
    Ok (mkDataFrame labels
          (map (fun record =>
                  map (fun l => match index_of l (columns df) with
                                | Some i => cell_at i record
                                | None => Num NaN
                                end) labels)
               (rows df)))
  else Raise (Exn KeyError (not_in_index labels (columns df))).

(** [df.head(n)]: the first [n] records; for a negative [n], all records but
    the last [-n]. *)
Definition head (n : Z) (df : DataFrame) : DataFrame :=
  let keep := if (0 <=? n)%Z then Z.to_nat n else (len df - Z.to_nat (- n))%nat in
  mkDataFrame (columns df) (firstn keep (rows df)).

(** [pd.to_numeric(s, errors='coerce')]: a number stays, a string becomes the
    number it spells or NaN. *)
Definition to_numeric_cell `{Library} (c : cell) : cell :=
  match c with
  | Num x => Num x
  | Str s => match parse_numeric s with Some x => Num x | None => Num NaN end
  end.

Definition to_numeric `{Library} (s : Series) : Series := map to_numeric_cell s.

Fixpoint replace_at (i : nat) (c : cell) (record : list cell) : list cell :=
  match i, record with
  | _, [] => []
  | O, _ :: tl => c :: tl
  | S j, hd :: tl => hd :: replace_at j c tl
  end.

Fixpoint zip_with {A B C} (f : A -> B -> C) (xs : list A) (ys : list B) : list C :=
  match xs, ys with
  | x :: xs', y :: ys' => f x y :: zip_with f xs' ys'
  | _, _ => []
  end.

(** [df[label] = s] for a series [s] with the index of [df]: the column is
    replaced, or added at the end when [label] is new. *)
Definition setitem (df : DataFrame) (label : string) (s : Series) : DataFrame :=
  match index_of label (columns df) with
  | Some i => mkDataFrame (columns df) (zip_with (fun record c => replace_at i c record) (rows df) s)
  | None => mkDataFrame (columns df ++ [label]) (zip_with (fun record c => record ++ [c]) (rows df) s)
  end.

(** [series >= t]: one boolean per cell; a string cell cannot be compared
    with a number. *)
Fixpoint ge `{Library} (s : Series) (t : float) : result (list bool) :=
  match s with
  | [] => Ok []
  | Num x :: s' =>
      match ge s' t with
      | Ok bs => Ok (fge x t :: bs)
      | Raise e => Raise e
      end
  | Str _ :: _ => Raise (Exn TypeError (unsupported_operand ">="))
  end.

(** [mask.sum()]: the number of [True]. *)
Fixpoint sum_bool (mask : list bool) : nat :=
  match mask with
  | [] => O
  | b :: bs => ((if b then 1 else 0) + sum_bool bs)%nat
  end.

Definition isnan (x : float) : bool :=
  match x with NaN => true | _ => false end.

Fixpoint numbers (s : Series) : option (list float) :=
  match s with
  | [] => Some []
  | Num x :: s' => option_map (cons x) (numbers s')
  | Str _ :: _ => None
  end.

(** [nanmean]: NaN entries are masked to 0 and summed with the rest; the sum
    is divided by the number of entries that are not NaN, and is NaN when
    there is none. *)
Definition nanmean (xs : list float) : float :=
  let the_sum := fold_left fadd (map (fun x => if isnan x then Fin 0 else x) xs) (Fin 0) in
  let count := List.length (filter (fun x => negb (isnan x)) xs) in
  if (0 <? count)%nat then fdiv the_sum (of_nat count) else NaN.

(** [series.mean()] *)
Definition mean `{Library} (s : Series) : result float :=
  match numbers s with
  | Some xs => Ok (nanmean xs)
  | None => object_mean s
  end.

(** [series.values[0]] *)
Definition first_value (s : Series) : result cell :=
  match s with
  | c :: _ => Ok c
  | [] => Raise (Exn IndexError "index 0 is out of bounds for axis 0 with size 0")
  end.

(** [a == 0] for a cell. *)
Definition cell_is_zero (c : cell) : bool :=
  match c with
  | Num x => feqb x (Fin 0)
  | Str _ => false
  end.

(** [a / b] for two cells. *)
Definition cell_div `{Library} (a b : cell) : result float :=
  match a, b with
  | Num x, Num y => Ok (fdiv x y)
  | _, _ => Raise (Exn TypeError (unsupported_operand "/"))
  end.

End Pd.

(** ** Formatting of numbers *)

Module PyFormat.
Import Py.

(** The digits of a natural number. *)
Definition digits (n : Z) : string := NilZero.string_of_uint (N.to_uint (Z.to_N n)).

(** [str(n)] for an [int]. *)
Definition int_str (n : Z) : string := NilZero.string_of_int (Z.to_int n).

Fixpoint zeros (n : nat) : string :=
  match n with
  | O => ""
  | S m => "0" ++ zeros m
  end.

Definition zero_pad (width : nat) (s : string) : string :=
  zeros (width - String.length s) ++ s.

(** [f"{q:.Nf}"] for a finite number: [ndigits] places after the point, the
    last one rounded on the exact value. *)
Definition format_Q (ndigits : nat) (q : Q) : string :=
  let scale := Zpos (pow10 ndigits) in
  let n := Z.abs (rint (q * inject_Z scale)) in
  (if Qle_bool 0 q then "" else "-")
  ++ digits (n / scale)
  ++ match ndigits with
     | O => ""
     | _ => "." ++ zero_pad ndigits (digits (n mod scale))
     end.

(** [f"{x:.Nf}"] *)
Definition format_f (ndigits : nat) (x : float) : string :=
  match x with
  | NaN => "nan"
  | PInf => "inf"
  | NInf => "-inf"
  | Fin q => format_Q ndigits q
  end.

(** The least number of places, up to [fuel], after which the decimal
    expansion of [q] ends. *)
Fixpoint places (fuel : nat) (k : nat) (q : Q) : option nat :=
  if (Qnum q * Zpos (pow10 k) mod Zpos (Qden q) =? 0)%Z then Some k
  else match fuel with
       | O => None
       | S fuel' => places fuel' (S k) q
       end.

(** [str(x)] for a float, in positional notation: the decimal expansion of
    the number, with [.0] after a whole number.  The exponent notation that
    Python uses from 1e16 on and below 1e-4 is not modelled, and a rational
    whose expansion does not end is cut at 17 places. *)
Definition float_str (x : float) : string :=
  match x with
  | NaN => "nan"
  | PInf => "inf"
  | NInf => "-inf"
  | Fin q =>
      match places 17 0 q with
      | Some O => format_Q 0 q ++ ".0"
      | Some k => format_Q k q
      | None => format_Q 17 q
      end
  end.

End PyFormat.

(** ** nba_api: the stats provider *)

Module NbaApi.
Import Py Pd.

(** A record of the players directory. *)
Record player : Set := mkPlayer {
  id : Z;
  full_name : string
}.

(** What the provider answers: the directory, and per endpoint the frames
    that [get_data_frames()] returns, or the exception that the request or
    the decoding of its answer raises. *)
Record Provider : Type := mkProvider {
  get_players : result (list player);
  CommonPlayerInfo : Z -> result (list DataFrame);
  PlayerCareerStats : Z -> result (list DataFrame);
  PlayerGameLog : Z -> string -> result (list DataFrame)
}.

Inductive call : Set :=
  | GetPlayers
  | CommonPlayerInfoCall (player_id : Z)
  | PlayerCareerStatsCall (player_id : Z)
  | PlayerGameLogCall (player_id : Z) (season : string).

(** A computation that may call the provider: from the calls made so far to
    an outcome and the calls made by then. *)
Definition M (A : Type) : Type := list call -> result A * list call.

Definition ret {A} (a : A) : M A := fun calls => (Ok a, calls).

Definition raise {A} (e : exn) : M A := fun calls => (Raise e, calls).

Definition bind {A B} (m : M A) (k : A -> M B) : M B :=
  fun calls =>
    match m calls with
    | (Ok a, calls') => k a calls'
    | (Raise e, calls') => (Raise e, calls')
    end.

Definition lift {A} (r : result A) : M A := fun calls => (r, calls).

(** One request to the provider, recorded. *)
Definition request {A} (c : call) (answer : result A) : M A :=
  fun calls => (answer, calls ++ [c]).

(** [try: body / except Exception as e: handler(e)] *)
Definition try_except {A} (body : M A) (handler : exn -> M A) : M A :=
  fun calls =>
    match body calls with
    | (Ok a, calls') => (Ok a, calls')
    | (Raise e, calls') => handler e calls'
    end.

Definition run {A} (m : M A) : result A * list call := m [].

(** [frames[i]] *)
Definition list_item {A} (l : list A) (i : nat) : result A :=
  match nth_error l i with
  | Some a => Ok a
  | None => Raise (Exn IndexError "list index out of range")
  end.

End NbaApi.

Declare Scope api_scope.
Delimit Scope api_scope with api.
Notation "x <- m ;; k" := (NbaApi.bind m (fun x => k))
  (at level 61, m at next level, right associativity) : api_scope.

Definition result_bind {A B} (r : Py.result A) (k : A -> Py.result B) : Py.result B :=
  match r with
  | Py.Ok a => k a
  | Py.Raise e => Py.Raise e
  end.

Declare Scope result_scope.
Delimit Scope result_scope with result.
Notation "x <- r ;; k" := (result_bind r (fun x => k))
  (at level 61, r at next level, right associativity) : result_scope.

(** ** nba_stats.py *)

Import Py Pd.

Definition VALID_STATS : list string := ["PTS"; "AST"; "REB"; "BLK"; "STL"].

(** [is_valid_stat(stat)] *)
Definition is_valid_stat (stat : string) : bool :=
  existsb (String.eqb (upper stat)) VALID_STATS.

(** *** class NBAData *)

Module NBAData.
Import NbaApi.
Local Open Scope api_scope.

Record t : Set := mk {
  name : string;
  player_id : Z;
  is_active : bool
}.

Section Methods.
Context `{Library}.
Variable api : Provider.

(** [lookup_player_id] reads [self.name] only. *)
Definition lookup_player_id (self_name : string) : M Z :=
  try_except
    (all_players <- request GetPlayers (get_players api) ;;
     let matches :=
       filter (fun p => String.eqb (lower (full_name p)) (lower self_name)) all_players in
     match matches with
     | p :: _ => ret (id p)
     | [] => raise (Exn ValueError ("Player '" ++ self_name ++ "' not found in NBA API."))
     end)
    (fun e => raise (Exn RuntimeError ("Error looking up player ID: " ++ str e))).

(** [bool(c)] for a cell. *)
Definition truthy (c : cell) : bool :=
  match c with
  | Num x => negb (feqb x (Fin 0))
  | Str s => negb (String.eqb s "")
  end.

(** [check_if_active] reads [self.player_id] only. *)
Definition check_if_active (self_player_id : Z) : M bool :=
  try_except
    (frames <- request (CommonPlayerInfoCall self_player_id)
                       (CommonPlayerInfo api self_player_id) ;;
     data <- lift (list_item frames 0) ;;
     match rows data with
     | [] => raise (Exn KeyError "0")
     | record :: _ =>
         match index_of "ROSTERSTATUS" (columns data) with
         | Some i => ret (truthy (cell_at i record))
         | None => ret false
         end
     end)
    (fun e => raise (Exn RuntimeError ("Error checking active status: " ++ str e))).

(** [NBAData(name)] *)
Definition init (input_name : string) : M t :=
  let self_name := title input_name in
  self_player_id <- lookup_player_id self_name ;;
  self_is_active <- check_if_active self_player_id ;;
  ret (mk self_name self_player_id self_is_active).

(** One entry of the mapping of [get_career_averages]:
    [round(df[label].values[0] / gp, 1)]. *)
Definition per_game (df : DataFrame) (gp : cell) (label : string) : result float :=
  (column <- getitem df label ;;
   total <- first_value column ;;
   quotient <- cell_div total gp ;;
   Ok (round quotient 1))%result.

Definition get_career_averages (self : t) : M (list (string * float)) :=
  try_except
    (frames <- request (PlayerCareerStatsCall (player_id self))
                       (PlayerCareerStats api (player_id self)) ;;
     df <- lift (list_item frames 1) ;;
     if empty df then ret []
     else
       gp <- lift (column <- getitem df "GP" ;; first_value column)%result ;;
       if cell_is_zero gp then ret []
       else
         pts <- lift (per_game df gp "PTS") ;;
         ast <- lift (per_game df gp "AST") ;;
         reb <- lift (per_game df gp "REB") ;;
         blk <- lift (per_game df gp "BLK") ;;
         stl <- lift (per_game df gp "STL") ;;
         ret [("PTS", pts); ("AST", ast); ("REB", reb); ("BLK", blk); ("STL", stl)])
    (fun e => raise (Exn RuntimeError ("Error retrieving career averages: " ++ str e))).

(** The loop [for col in [...]: df[col] = pd.to_numeric(df[col], errors='coerce')]. *)
Fixpoint coerce_columns (df : DataFrame) (labels : list string) : result DataFrame :=
  match labels with
  | [] => Ok df
  | col :: rest =>
      (column <- getitem df col ;;
       coerce_columns (setitem df col (to_numeric column)) rest)%result
  end.

(** [get_recent_games(season, num_games)]; the defaults of the source are
    [season='2024-25'] and [num_games=10]. *)
Definition get_recent_games (self : t) (season : string) (num_games : Z) : M DataFrame :=
  if negb (is_active self) then
    raise (Exn ValueError
             (name self ++ " is not an active player. Recent game logs unavailable."))
  else
    try_except
      (frames <- request (PlayerGameLogCall (player_id self) season)
                         (PlayerGameLog api (player_id self) season) ;;
       df <- lift (list_item frames 0) ;;
       if empty df then
         raise (Exn ValueError
                  ("No game log data available for " ++ name self
                   ++ " in season " ++ season ++ "."))
       else
         df <- lift (select df ["GAME_DATE"; "PTS"; "AST"; "REB"; "BLK"; "STL"]) ;;
         let df := head num_games df in
         df <- lift (coerce_columns df ["PTS"; "AST"; "REB"; "BLK"; "STL"]) ;;
         ret df)
      (fun e => raise (Exn RuntimeError ("Error retrieving recent games: " ++ str e))).

End Methods.
End NBAData.

(** *** class StatFormula *)

Module StatFormula.

Record t : Set := mk {
  data : DataFrame;
  stat : string;
  threshold : option float
}.

(** [StatFormula(data, stat, threshold=None)] *)
Definition init (data : DataFrame) (stat : string) (threshold : option float) : t :=
  mk data (upper stat) threshold.

Section Methods.
Context `{Library}.

(** The body of the [try] of [compute].  [count] is the numpy integer that
    [sum] returns, so that the division is numpy's. *)
Definition compute_body (self : t) : result float :=
  (values <- getitem (data self) (stat self) ;;
   match threshold self with
   | Some t =>
       mask <- ge values t ;;
       let count := sum_bool mask in
       Ok (round (fdiv (of_nat count) (of_nat (List.length values))) 2)
   | None =>
       m <- mean values ;;
       Ok (round m 2)
   end)%result.

(** [compute()]: KeyError becomes ValueError, any other exception
    RuntimeError. *)
Definition compute (self : t) : result float :=
  match compute_body self with
  | Ok r => Ok r
  | Raise e =>
      match class_of e with
      | KeyError =>
          Raise (Exn ValueError ("Stat '" ++ stat self ++ "' not found in game data."))
      | _ => Raise (Exn RuntimeError ("Error computing stat formula: " ++ str e))
      end
  end.

End Methods.
End StatFormula.

(** *** main: the report of the result *)

Definition newline : string := String (ascii_of_nat 10) "".

(** What lines 187-190 of [main] write to the standard output, [print]
    ending the line: the text is the one of the source file, byte for byte. *)
Definition main_report (player_name : string) (args_games : Z) (args_stat : string)
    (args_threshold : option float) (result : float) : string :=
  match args_threshold with
  | Some threshold =>
      newline ++ "Prediction: " ++ player_name ++ " has a "
      ++ PyFormat.format_f 1 (fmul result (Fin 100)) ++ "% chance of â‰¥ "
      ++ PyFormat.float_str threshold ++ " " ++ args_stat ++ "." ++ newline
  | None =>
      newline ++ "Average " ++ args_stat ++ " over last "
      ++ PyFormat.int_str args_games ++ " games: " ++ PyFormat.format_f 2 result ++ newline
  end.

(** The sentence of the threshold mode as the interface documents it. *)
Definition prediction_sentence (player_name : string) (pct : float) (threshold : float)
    (stat : string) : string :=
  "Prediction: " ++ player_name ++ " has a " ++ PyFormat.format_f 1 pct
  ++ "% chance of ≥ " ++ PyFormat.float_str threshold ++ " " ++ stat ++ ".".

(** ** Data of the examples *)

(** The digits of a whole number, read from the left. *)
Fixpoint parse_digits (acc : Z) (seen : bool) (s : string) : option Z :=
  match s with
  | EmptyString => if seen then Some acc else None
  | String c s' =>
      let n := Z.of_nat (nat_of_ascii c) in
      if ((48 <=? n) && (n <=? 57))%Z then parse_digits (10 * acc + (n - 48)) true s'
      else None
  end.

(** A library for the examples: its parser reads the whole numbers written
    in digits, and a column of strings has no mean. *)
#[global] Instance example_library : Library := {|
  parse_numeric := fun s => option_map of_Z (parse_digits 0 false s);
  not_in_index := fun labels present => "not in index"%string;
  unsupported_operand := fun op => ("unsupported operand type(s) for " ++ op)%string;
  object_mean := fun s => Raise (Exn TypeError "Could not convert to numeric")
|}.

(** A table of one numeric column. *)
Definition one_column (label : string) (values : list float) : DataFrame :=
  mkDataFrame [label] (map (fun x => [Num x]) values).

Definition whole (n : Z) : float := of_Z n.

(** The values of the two modes of StatFormula. *)
Definition threshold_example : DataFrame :=
  one_column "PTS" [whole 18; whole 22; whole 25; whole 15; whole 30].

Definition average_example : DataFrame :=
  one_column "PTS" [whole 10; whole 20; whole 30].

(** A game log as the provider sends it: the six columns of the recent-games
    table among others, the numbers as text or as numbers. *)
Definition game_log_columns : list string :=
  ["SEASON_ID"; "GAME_DATE"; "MATCHUP"; "PTS"; "AST"; "REB"; "BLK"; "STL"].

Definition game (date : string) (pts ast reb blk stl : cell) : list cell :=
  [Str "22024"; Str date; Str "LAL vs. BOS"; pts; ast; reb; blk; stl].

Definition three_games : DataFrame :=
  mkDataFrame game_log_columns
    [game "Apr 11, 2025" (Num (whole 30)) (Num (whole 8)) (Num (whole 7)) (Num (whole 1)) (Num (whole 2));
     game "Apr 09, 2025" (Str "24") (Num (whole 5)) (Num (whole 9)) (Num (whole 0)) (Num (whole 1));
     game "Apr 08, 2025" (Str "DNP") (Num NaN) (Num (whole 4)) (Num (whole 2)) (Num (whole 0))].

Definition lebron : NBAData.t := NBAData.mk "Lebron James" 2544 true.

Definition retired : NBAData.t := NBAData.mk "Michael Jordan" 893 false.

Definition directory : list NbaApi.player :=
  [NbaApi.mkPlayer 2544 "LeBron James"; NbaApi.mkPlayer 893 "Michael Jordan"].

(** Career totals: 4 games, 1 point, 10 assists, 7 rebounds, no block, 3 steals. *)
Definition career_totals : DataFrame :=
  mkDataFrame ["PLAYER_ID"; "GP"; "PTS"; "AST"; "REB"; "BLK"; "STL"]
    [[Num (whole 2544); Num (whole 4); Num (whole 1); Num (whole 10); Num (whole 7);
      Num (whole 0); Num (whole 3)]].

Definition seasons : DataFrame := mkDataFrame ["PLAYER_ID"; "SEASON_ID"; "GP"] [].

(** A provider that knows [directory], answers the game log with
    [three_games] and the career statistics with [career_totals]. *)
Definition example_provider : NbaApi.Provider :=
  NbaApi.mkProvider
    (Ok directory)
    (fun _ => Raise (Exn OtherError "HTTP 500"))
    (fun _ => Ok [seasons; career_totals])
    (fun _ _ => Ok [three_games]).

(** Five games, the points being 30, 20, 28, 24 and 26. *)
Definition five_games : DataFrame :=
  mkDataFrame game_log_columns
    [game "Apr 11, 2025" (Num (whole 30)) (Num (whole 8)) (Num (whole 7)) (Num (whole 1)) (Num (whole 2));
     game "Apr 09, 2025" (Num (whole 20)) (Num (whole 5)) (Num (whole 9)) (Num (whole 0)) (Num (whole 1));
     game "Apr 08, 2025" (Num (whole 28)) (Num (whole 9)) (Num (whole 4)) (Num (whole 2)) (Num (whole 0));
     game "Apr 06, 2025" (Num (whole 24)) (Num (whole 7)) (Num (whole 6)) (Num (whole 1)) (Num (whole 1));
     game "Apr 04, 2025" (Num (whole 26)) (Num (whole 6)) (Num (whole 8)) (Num (whole 0)) (Num (whole 3))].

Definition five_games_provider : NbaApi.Provider :=
  NbaApi.mkProvider
    (Ok directory)
    (fun _ => Ok [mkDataFrame ["ROSTERSTATUS"] [[Str "Active"]]])
    (fun _ => Ok [seasons; career_totals])
    (fun _ _ => Ok [five_games]).


(** A provider whose directory request fails with the given exception. *)
Definition failing_provider (e : exn) : NbaApi.Provider :=
  NbaApi.mkProvider (Raise e) (fun _ => Raise e) (fun _ => Raise e) (fun _ _ => Raise e).

(** ** Vocabulary of the statements *)

Definition dropna (xs : list float) : list float :=
  filter (fun x => negb (isnan x)) xs.

(** The arithmetic mean of a list of numbers: their sum over their count
    (NaN for no number at all, as 0/0 is). *)
Definition arithmetic_mean (xs : list float) : float :=
  fdiv (fold_left fadd xs (Fin 0)) (of_nat (List.length xs)).

(** The number of values that reach the threshold. *)
Definition count_ge (xs : list float) (t : float) : nat :=
  List.length (filter (fun x => fge x t) xs).

(** The quotient of two counts, as a rational. *)
Definition ratio (count total : nat) : Q := Z.of_nat count # Pos.of_nat total.

(** A column of counts is given by its entries, [None] for a missing one;
    the table holds a count as the number and a missing one as NaN. *)
Definition count_cell (e : option Z) : float :=
  match e with
  | Some z => of_Z z
  | None => NaN
  end.

Definition count_column (entries : list (option Z)) : Series :=
  map (fun e => Num (count_cell e)) entries.

(** The counts that are there, in order. *)
Fixpoint present (entries : list (option Z)) : list Z :=
  match entries with
  | [] => []
  | Some z :: rest => z :: present rest
  | None :: rest => present rest
  end.

(** A statistic of one game and the number of games stay far below this. *)
Definition count_limit : Z := 1000000.

(** At most [count_limit] entries, each at most [count_limit] in size: the
    sums of such a column are whole numbers below 2^53, which binary64 adds
    without rounding in any order, and a mean that is not midway between two
    hundredths is further from the midpoint than the rounding of its
    quotient can move it. *)
Definition within_limit (entries : list (option Z)) : bool :=
  (Z.of_nat (List.length entries) <=? count_limit)%Z
  && forallb (fun z => (Z.abs z <=? count_limit)%Z) (present entries).

Definition sum_of (zs : list Z) : Z := fold_right Z.add 0%Z zs.

(** The mean of whole numbers, as a rational. *)
Definition exact_mean (zs : list Z) : Q := sum_of zs # Pos.of_nat (List.length zs).

(** Values of a threshold mode whose quotient needs rounding: one of three
    reaches 20, by being 20. *)
Definition one_in_three : DataFrame :=
  one_column "PTS" [whole 20; whole 12; whole 18].

(** Values of an average mode with a missing entry and a mean that needs
    rounding: 31/3. *)
Definition mean_with_missing : DataFrame :=
  one_column "PTS" [whole 10; NaN; whole 10; whole 11].

(** A column of missing entries only. *)
Definition all_missing : DataFrame := one_column "PTS" [NaN; NaN].

Definition is_number (c : cell) : bool :=
  match c with Num _ => true | Str _ => false end.

(** Every record holds a number at position [i]. *)
Definition numeric_at (i : nat) (df : DataFrame) : Prop :=
  forall record, In record (rows df) -> is_number (cell_at i record) = true.

(** The column exists and holds numbers (NaN included) only. *)
Definition numeric_column (df : DataFrame) (label : string) : Prop :=
  exists xs, getitem df label = Ok (map Num xs).

(** One record after [df[col] = pd.to_numeric(df[col], errors='coerce')],
    [col] being at position [i]. *)
Definition coerce_at `{Library} (i : nat) (record : list cell) : list cell :=
  replace_at i (to_numeric_cell (cell_at i record)) record.

Definition recent_games_columns : list string :=
  ["GAME_DATE"; "PTS"; "AST"; "REB"; "BLK"; "STL"].

(** The entries of the directory whose full name is the given name, case
    apart. *)
Definition matching (input_name : string) (directory : list NbaApi.player) : list NbaApi.player :=
  filter (fun p => String.eqb (lower (NbaApi.full_name p)) (lower input_name)) directory.


(** The totals of [career_totals], by stat. *)
Definition example_total (label : string) : Q :=
  if String.eqb label "PTS" then 1
  else if String.eqb label "AST" then 10
  else if String.eqb label "REB" then 7
  else if String.eqb label "BLK" then 0
  else 3.

(** ** Vocabulary of the further statements *)

(** Two floats that are the same number: the same infinity, both NaN, or
    equal rationals. *)
Definition feq (x y : float) : Prop :=
  match x, y with
  | NaN, NaN | PInf, PInf | NInf, NInf => True
  | Fin a, Fin b => (a == b)%Q
  | _, _ => False
  end.

(** The number of rows that [head(n)] keeps of [k] rows. *)
Definition kept (n : Z) (k : nat) : nat :=
  if (0 <=? n)%Z then Nat.min (Z.to_nat n) k else (k - Z.to_nat (- n))%nat.

(** A provider that knows [directory] and answers the profile request with
    the given frame. *)
Definition profile_provider (profile : DataFrame) : NbaApi.Provider :=
  NbaApi.mkProvider
    (Ok directory)
    (fun _ => Ok [profile])
    (fun _ => Ok [seasons; career_totals])
    (fun _ _ => Ok [five_games]).

(** ** nba_stats.py: the profile and the driver *)

(** What the driver takes from the interpreter and from pandas as it is:
    [int(s)] and [float(s)], [None] standing for ValueError; the text that
    [print] writes for a frame; the text of a number held by a frame, which
    depends on its dtype. *)
Class Console : Type := {
  int_of_string : string -> option Z;
  float_of_string : string -> option float;
  frame_text : DataFrame -> string;
  number_text : float -> string
}.

Definition is_space (c : ascii) : bool :=
  let n := nat_of_ascii c in
  ((9 <=? n)%nat && (n <=? 13)%nat) || ((28 <=? n)%nat && (n <=? 32)%nat).

Fixpoint lstrip (s : string) : string :=
  match s with
  | String c s' => if is_space c then lstrip s' else s
  | EmptyString => EmptyString
  end.

Fixpoint rstrip (s : string) : string :=
  match s with
  | EmptyString => EmptyString
  | String c s' =>
      match rstrip s' with
      | EmptyString => if is_space c then EmptyString else String c EmptyString
      | rest => String c rest
      end
  end.

(** [s.strip()] *)
Definition strip (s : string) : string := rstrip (lstrip s).

(** Truth value of an optional string: [None] and [""] are false. *)
Definition given (s : option string) : bool :=
  match s with
  | Some text => negb (String.eqb text "")
  | None => false
  end.

Module Profile.

(** The mapping that [get_player_profile] returns, by key: Name, Weight,
    Team, Position, Height, From Year, To Year. *)
Record t : Set := mk {
  Name : string;
  Weight : cell;
  Team : cell;
  Position : cell;
  Height : cell;
  From_Year : cell;
  To_Year : cell
}.

End Profile.

Section Profiles.
Context `{Library} `{Console}.
Variable api : NbaApi.Provider.
Import NbaApi.
Local Open Scope api_scope.

(** [data.loc[0].get(label, 'N/A')]: KeyError when the frame has no row. *)
Definition loc0_get (data : DataFrame) (label : string) : result cell :=
  match rows data with
  | [] => Raise (Exn KeyError "0")
  | record :: _ =>
      match index_of label (columns data) with
      | Some i => Ok (cell_at i record)
      | None => Ok (Str "N/A")
      end
  end.

(** [NBAData.get_player_profile] *)
Definition get_player_profile (self : NBAData.t) : M Profile.t :=
  try_except
    (frames <- request (CommonPlayerInfoCall (NBAData.player_id self))
                       (CommonPlayerInfo api (NBAData.player_id self)) ;;
     data <- lift (list_item frames 0) ;;
     weight <- lift (loc0_get data "WEIGHT") ;;
     team <- lift (loc0_get data "TEAM_NAME") ;;
     position <- lift (loc0_get data "POSITION") ;;
     height <- lift (loc0_get data "HEIGHT") ;;
     from_year <- lift (loc0_get data "FROM_YEAR") ;;
     to_year <- lift (loc0_get data "TO_YEAR") ;;
     ret (Profile.mk (NBAData.name self) weight team position height from_year to_year))
    (fun e => raise (Exn RuntimeError ("Error retrieving player profile: " ++ str e))).

(** The text of a value in an f-string. *)
Definition value_text (c : cell) : string :=
  match c with
  | Str s => s
  | Num x => number_text x
  end.

(** The text that [__str__] builds of a profile. *)
Definition profile_text (p : Profile.t) : string :=
  newline ++ "📋 Player Profile for " ++ Profile.Name p ++ ":" ++ newline
  ++ "  Team: " ++ value_text (Profile.Team p) ++ newline
  ++ "  Position: " ++ value_text (Profile.Position p) ++ newline
  ++ "  Height: " ++ value_text (Profile.Height p) ++ newline
  ++ "  Weight: " ++ value_text (Profile.Weight p) ++ newline
  ++ "  Seasons Active: " ++ value_text (Profile.From_Year p)
  ++ " to " ++ value_text (Profile.To_Year p).

(** [NBAData.__str__] *)
Definition to_str (self : NBAData.t) : M string :=
  p <- get_player_profile self ;;
  ret (profile_text p).

End Profiles.

(** *** main *)

(** The namespace that [parse_args] returns. *)
Record Args : Set := mkArgs {
  player : option string;
  stat : option string;
  threshold : option float;
  games : option Z;
  season : string;
  show_data : bool
}.

Definition set_player (args : Args) (v : option string) : Args :=
  mkArgs v (stat args) (threshold args) (games args) (season args) (show_data args).

Definition set_stat (args : Args) (v : option string) : Args :=
  mkArgs (player args) v (threshold args) (games args) (season args) (show_data args).

Definition set_threshold (args : Args) (v : option float) : Args :=
  mkArgs (player args) (stat args) v (games args) (season args) (show_data args).

Definition set_games (args : Args) (v : option Z) : Args :=
  mkArgs (player args) (stat args) (threshold args) v (season args) (show_data args).

Definition set_show_data (args : Args) (v : bool) : Args :=
  mkArgs (player args) (stat args) (threshold args) (games args) (season args) v.

Module Driver.
Import NbaApi.

(** What a run has around it: the lines that the standard input still
    holds, what was written to the standard output, piece by piece, and the
    requests made to the provider. *)
Record World : Set := mkWorld {
  stdin : list string;
  stdout : list string;
  requests : list call
}.

Definition IO (A : Type) : Type := World -> result A * World.

Definition ret {A} (a : A) : IO A := fun w => (Ok a, w).

Definition raise {A} (e : exn) : IO A := fun w => (Raise e, w).

Definition bind {A B} (m : IO A) (k : A -> IO B) : IO B :=
  fun w =>
    match m w with
    | (Ok a, w') => k a w'
    | (Raise e, w') => (Raise e, w')
    end.

(** Writing to the standard output. *)
Definition write (text : string) : IO unit :=
  fun w => (Ok tt, mkWorld (stdin w) (stdout w ++ [text]) (requests w)).

(** [print(text)] *)
Definition print (text : string) : IO unit := write (text ++ newline).

(** [input(prompt)]: the prompt is written, a line is read; past the last
    line it is EOFError. *)
Definition input (prompt : string) : IO string :=
  fun w =>
    match stdin w with
    | line :: rest => (Ok line, mkWorld rest (stdout w ++ [prompt]) (requests w))
    | [] => (Raise (Exn OtherError "EOF when reading a line"),
             mkWorld [] (stdout w ++ [prompt]) (requests w))
    end.

(** A computation on the provider, run in the world. *)
Definition call_api {A} (m : M A) : IO A :=
  fun w =>
    let (outcome, calls) := m (requests w) in
    (outcome, mkWorld (stdin w) (stdout w) calls).

Definition lift {A} (r : result A) : IO A := fun w => (r, w).

End Driver.

Declare Scope io_scope.
Delimit Scope io_scope with io.
Notation "x <- m ;; k" := (Driver.bind m (fun x => k))
  (at level 61, m at next level, right associativity) : io_scope.
Notation "m ;;; k" := (Driver.bind m (fun _ => k))
  (at level 61, right associativity) : io_scope.

Definition is_game_log (c : NbaApi.call) : bool :=
  match c with NbaApi.PlayerGameLogCall _ _ => true | _ => false end.

Section Main.
Context `{Library} `{Console}.
Variable api : NbaApi.Provider.
Import Driver.
Local Open Scope io_scope.

Definition games_prompt : string :=
  newline ++ "Do you want to analyze the last 5 or 10 games? Enter 5 or 10: ".

(** The loop [while True] of [main], line by line of the standard input:
    it ends on the first line that [int] reads as 5 or 10, and with EOFError
    when the lines run out. *)
Fixpoint ask_games_loop (lines written : list string)
    : result Z * list string * list string :=
  match lines with
  | [] => (Raise (Exn OtherError "EOF when reading a line"), [], written ++ [games_prompt])
  | line :: rest =>
      match int_of_string line with
      | Some g =>
          if ((g =? 5) || (g =? 10))%Z then (Ok g, rest, written ++ [games_prompt])
          else ask_games_loop rest
                 (written ++ [games_prompt; ("Please enter either 5 or 10." ++ newline)%string])
      | None =>
          ask_games_loop rest
            (written
             ++ [games_prompt; ("Invalid input. Please enter a number." ++ newline)%string])
      end
  end.

Definition ask_games : IO Z :=
  fun w =>
    let '(outcome, rest, written) := ask_games_loop (stdin w) (stdout w) in
    (outcome, mkWorld rest written (requests w)).

Fixpoint print_averages (averages : list (string * float)) : IO unit :=
  match averages with
  | [] => ret tt
  | (label, value) :: rest =>
      print ("  " ++ label ++ ": " ++ PyFormat.float_str value) ;;; print_averages rest
  end.

(** [args.player], [args.stat] and [args.games] once they are set. *)
Definition player_of (args : Args) : string :=
  match player args with Some name => name | None => "" end.

Definition stat_of (args : Args) : string :=
  match stat args with Some code => code | None => "" end.

Definition games_of (args : Args) : Z :=
  match games args with Some g => g | None => 0%Z end.

(** Lines 142-155: the name, the object, the profile and the career. *)
Definition main_intro (args : Args) : IO (Args * NBAData.t) :=
  args <- (if given (player args) then ret args
           else name <- input "Enter NBA player full name (e.g. LeBron James): " ;;
                ret (set_player args (Some name))) ;;
  self <- call_api (NBAData.init api (player_of args)) ;;
  print (newline ++ "Career averages for " ++ NBAData.name self ++ ":") ;;;
  text <- call_api (to_str api self) ;;
  print text ;;;
  career_stats <- call_api (NBAData.get_career_averages api self) ;;
  match career_stats with
  | [] => print "  No career data available."
  | _ => print_averages career_stats
  end ;;;
  ret (args, self).

(** Lines 158-190: the prediction for an active player. *)
Definition main_predict (args : Args) (self : NBAData.t) : IO unit :=
  answer <- input (newline
                   ++ "Would you like to predict stats for next game? (type: yes or no): ") ;;
  let proceed := lower (strip answer) in
  if negb (String.eqb proceed "yes") then ret tt
  else
    args <- (match games args with
             | Some g => if (g =? 0)%Z then g <- ask_games ;; ret (set_games args (Some g))
                         else ret args
             | None => g <- ask_games ;; ret (set_games args (Some g))
             end) ;;
    text <- input "Which stat would you like to predict? (PTS, AST, REB, BLK, STL): " ;;
    let args := set_stat args (Some (upper (strip text))) in
    if negb (is_valid_stat (stat_of args)) then
      raise (Exn ValueError ("'" ++ stat_of args ++ "' is not a valid stat."))
    else
      text <- input ("Enter threshold for " ++ stat_of args ++ " (e.g., 20): ") ;;
      let args := set_threshold args (float_of_string text) in
      recent <- call_api (NBAData.get_recent_games api self (season args) (games_of args)) ;;
      print (newline ++ "Recent games played (last " ++ PyFormat.int_str (games_of args)
             ++ " games):") ;;;
      print (frame_text recent) ;;;
      result <- lift (StatFormula.compute
                        (StatFormula.init recent (stat_of args) (threshold args))) ;;
      write (main_report (NBAData.name self) (games_of args) (stat_of args)
               (threshold args) result).

(** The body of the [try] of [main]; [self] is the [player] of the source. *)
Definition main_body (args : Args) : IO unit :=
  intro <- main_intro args ;;
  let (args, self) := intro in
  if NBAData.is_active self then main_predict args self
  else if given (stat args) then
    print (newline ++ "Note: " ++ NBAData.name self
           ++ " is retired. Prediction only works for active players.")
  else ret tt.

(** [main(args)]: whatever is raised is written, and the run ends. *)
Definition main (args : Args) (w : World) : World :=
  match main_body args w with
  | (Ok _, w') => w'
  | (Raise e, w') => snd (print (newline ++ "Error: " ++ str e) w')
  end.

End Main.

(** ** Vocabulary of the statements on the driver *)

(** What the loop of [main] writes for a line that it refuses. *)
Definition games_retry `{Console} (line : string) : list string :=
  match int_of_string line with
  | Some _ => [games_prompt; ("Please enter either 5 or 10." ++ newline)%string]
  | None => [games_prompt; ("Invalid input. Please enter a number." ++ newline)%string]
  end.

(** A line that the loop of [main] refuses: [int] does not read it as 5 or
    as 10. *)
Definition refused `{Console} (line : string) : bool :=
  match int_of_string line with
  | Some g => negb ((g =? 5) || (g =? 10))%Z
  | None => true
  end.

Definition proceed_prompt : string :=
  newline ++ "Would you like to predict stats for next game? (type: yes or no): ".

Definition stat_prompt : string :=
  "Which stat would you like to predict? (PTS, AST, REB, BLK, STL): ".

(** What [print] writes of the note on retired players. *)
Definition retired_note (name : string) : string :=
  (newline ++ "Note: " ++ name ++ " is retired. Prediction only works for active players.")
  ++ newline.

(** What [print] writes of an exception that [main] caught. *)
Definition error_line (text : string) : string :=
  (newline ++ "Error: " ++ text) ++ newline.

(** The value that a profile gives to a field: the cell of the first record,
    or N/A when the frame does not have the column. *)
Definition profile_field (data : DataFrame) (record : list cell) (label : string) : cell :=
  match index_of label (columns data) with
  | Some i => cell_at i record
  | None => Str "N/A"
  end.

(** A console for the examples: [int] reads whole numbers written in digits,
    [float] reads the same, a frame is written as its header. *)
#[global] Instance example_console : Console := {|
  int_of_string := fun s => parse_digits 0 false s;
  float_of_string := fun s => option_map of_Z (parse_digits 0 false s);
  frame_text := fun df => String.concat " " (columns df);
  number_text := PyFormat.float_str
|}.

(** A retired player's profile, and an active one's. *)
Definition retired_profile : DataFrame :=
  mkDataFrame ["TEAM_NAME"; "ROSTERSTATUS"] [[Str "Bulls"; Num (whole 0)]].

Definition inactive_text_profile : DataFrame :=
  mkDataFrame ["TEAM_NAME"; "ROSTERSTATUS"] [[Str "Bulls"; Str "Inactive"]].

Definition no_status_profile : DataFrame :=
  mkDataFrame ["TEAM_NAME"] [[Str "Lakers"]].

Definition active_profile : DataFrame :=
  mkDataFrame ["TEAM_NAME"; "ROSTERSTATUS"] [[Str "Lakers"; Num (whole 1)]].

Definition flags (name : string) : Args :=
  mkArgs (Some name) None None None "2024-25" false.

(** * Properties *)

(** ** Rounding *)

Section Rounding.
Local Open Scope Z_scope.

Lemma half_even_scale (n d k : Z) :
  0 < d -> 0 < k -> half_even (k * n) (k * d) = half_even n d.
Proof.
  intros Hd Hk. unfold half_even.
  replace (2 * (k * n) + k * d) with (k * (2 * n + d)) by ring.
  replace (2 * (k * d)) with (k * (2 * d)) by ring.
  rewrite Z.div_mul_cancel_l by lia.
  rewrite Z.mul_mod_distr_l by lia.
  destruct (Z.eqb_spec ((2 * n + d) mod (2 * d)) 0) as [E | E].
  - rewrite E, Z.mul_0_r. reflexivity.
  - destruct (Z.eqb_spec (k * ((2 * n + d) mod (2 * d))) 0) as [E' | E']; [nia | reflexivity].
Qed.

Lemma half_even_mono (n1 n2 d : Z) :
  0 < d -> n1 <= n2 -> half_even n1 d <= half_even n2 d.
Proof.
  intros Hd Hn. unfold half_even.
  set (a1 := 2 * n1 + d). set (a2 := 2 * n2 + d). set (b := 2 * d).
  assert (Hb : 0 < b) by (unfold b; lia).
  assert (Ha : a1 <= a2) by (unfold a1, a2; lia).
  pose proof (Z.div_mod a1 b ltac:(lia)) as E1.
  pose proof (Z.div_mod a2 b ltac:(lia)) as E2.
  pose proof (Z.mod_pos_bound a1 b Hb) as B1.
  pose proof (Z.mod_pos_bound a2 b Hb) as B2.
  pose proof (Z.div_le_mono a1 a2 b Hb Ha) as Hf.
  destruct (Z.eqb_spec (a1 mod b) 0) as [R1 | R1];
    destruct (Z.eqb_spec (a2 mod b) 0) as [R2 | R2]; simpl;
    try (destruct (Z.odd (a1 / b)) eqn:O1); try (destruct (Z.odd (a2 / b)) eqn:O2);
    try lia.
  (* what is left: the second sum is whole with an odd quotient, and the first
     is not so; the two quotients then differ *)
  all: assert (a1 / b <> a2 / b)
    by (intros E; first [ rewrite E in O1; congruence | rewrite E in E1; lia ]); lia.
Qed.

Lemma half_even_exact (z d : Z) : 0 < d -> half_even (z * d) d = z.
Proof.
  intros Hd. unfold half_even.
  assert (E : (2 * (z * d) + d) = z * (2 * d) + d) by ring.
  rewrite E.
  assert (Q : (z * (2 * d) + d) / (2 * d) = z).
  { rewrite Z.add_comm, Z.div_add by lia. rewrite Z.div_small by lia. lia. }
  assert (R : (z * (2 * d) + d) mod (2 * d) = d).
  { rewrite Z.add_comm, Z.mod_add by lia. apply Z.mod_small. lia. }
  rewrite Q, R.
  destruct (Z.eqb_spec d 0); [lia | reflexivity].
Qed.

Lemma rint_compat (p q : Q) : (p == q)%Q -> rint p = rint q.
Proof.
  unfold Qeq, rint. intros E.
  rewrite <- (half_even_scale (Qnum p) (Zpos (Qden p)) (Zpos (Qden q))) by lia.
  rewrite <- (half_even_scale (Qnum q) (Zpos (Qden q)) (Zpos (Qden p))) by lia.
  f_equal; lia.
Qed.

Lemma rint_mono (p q : Q) : (p <= q)%Q -> rint p <= rint q.
Proof.
  unfold Qle, rint. intros E.
  rewrite <- (half_even_scale (Qnum p) (Zpos (Qden p)) (Zpos (Qden q))) by lia.
  rewrite <- (half_even_scale (Qnum q) (Zpos (Qden q)) (Zpos (Qden p))) by lia.
  replace (Zpos (Qden p) * Zpos (Qden q)) with (Zpos (Qden q) * Zpos (Qden p)) by ring.
  apply half_even_mono; lia.
Qed.

Lemma rint_inject_Z (z : Z) : rint (inject_Z z) = z.
Proof.
  unfold rint, inject_Z. simpl.
  rewrite <- (half_even_exact z 1) at 2 by lia. f_equal. lia.
Qed.

Lemma round_Q_compat (p q : Q) (ndigits : nat) :
  (p == q)%Q -> round_Q p ndigits = round_Q q ndigits.
Proof.
  intros E. unfold round_Q.
  rewrite (rint_compat (p * inject_Z (Zpos (pow10 ndigits))) (q * inject_Z (Zpos (pow10 ndigits))));
    [reflexivity | rewrite E; reflexivity].
Qed.

Lemma round_Q_mono (p q : Q) (ndigits : nat) :
  (p <= q)%Q -> (round_Q p ndigits <= round_Q q ndigits)%Q.
Proof.
  intros E. unfold round_Q. rewrite !Qred_correct.
  unfold Qle. simpl.
  apply Z.mul_le_mono_nonneg_r; [lia |].
  apply rint_mono. apply Qmult_le_compat_r; [exact E |].
  unfold Qle. simpl. lia.
Qed.

(** [half_even n d] is a nearest integer to [n / d]. *)
Lemma half_even_nearest (n d : Z) : 0 < d -> 2 * Z.abs (half_even n d * d - n) <= d.
Proof.
  intros Hd. unfold half_even.
  set (a := 2 * n + d). set (b := 2 * d).
  pose proof (Z.div_mod a b ltac:(unfold b; lia)) as E.
  pose proof (Z.mod_pos_bound a b ltac:(unfold b; lia)) as B.
  destruct ((a mod b =? 0) && Z.odd (a / b))%bool eqn:T.
  - apply andb_prop in T as [T _]. apply Z.eqb_eq in T. unfold a, b in *. lia.
  - unfold a, b in *. lia.
Qed.

(** [round(q, 2)] is a number of hundredths. *)
Lemma round_Q_hundredths (q : Q) : (round_Q q 2 == rint (q * inject_Z 100) # 100)%Q.
Proof. unfold round_Q. rewrite Qred_correct. reflexivity. Qed.

(** [round(q, 2)] is at most half a hundredth from [q]. *)
Lemma round_Q_nearest (q : Q) : (Qabs (round_Q q 2 - q) <= 1 # 200)%Q.
Proof.
  rewrite round_Q_hundredths. apply Qabs_Qle_condition.
  destruct q as [n d]. unfold rint. cbn [Qmult Qnum Qden inject_Z].
  pose proof (half_even_nearest (n * 100) (Zpos (d * 1)) ltac:(lia)) as N.
  set (k := half_even _ _) in *.
  unfold Qle, Qminus, Qplus, Qopp; cbn [Qnum Qden].
  rewrite ?Pos2Z.inj_mul in *. split; lia.
Qed.

Lemma round_Q_inject_Z (z : Z) (ndigits : nat) :
  (round_Q (inject_Z z) ndigits == inject_Z z)%Q.
Proof.
  unfold round_Q. rewrite Qred_correct.
  rewrite (rint_compat _ (inject_Z (z * Zpos (pow10 ndigits))))
    by (rewrite inject_Z_mult; reflexivity).
  rewrite rint_inject_Z. unfold Qeq, inject_Z. simpl. lia.
Qed.

End Rounding.

(** ** Strings *)

Lemma to_lower_idempotent (c : ascii) : to_lower (to_lower c) = to_lower c.
Proof. destruct c as [[] [] [] [] [] [] [] []]; reflexivity. Qed.

Lemma to_lower_to_upper (c : ascii) : to_lower (to_upper c) = to_lower c.
Proof. destruct c as [[] [] [] [] [] [] [] []]; reflexivity. Qed.

Lemma lower_title_from (b : bool) (s : string) : lower (title_from b s) = lower s.
Proof.
  revert b. induction s as [| c s IH]; intros b; simpl; [reflexivity |].
  destruct (is_lower c), (is_upper c), b; simpl; rewrite IH;
    rewrite ?to_lower_to_upper, ?to_lower_idempotent; reflexivity.
Qed.

(** Case is all that [title] changes. *)
Lemma lower_title (s : string) : lower (title s) = lower s.
Proof. apply lower_title_from. Qed.

(** ** Columns *)

Section Columns.
Context `{Library}.

Lemma getitem_length (df : DataFrame) (label : string) (values : Series) :
  getitem df label = Ok values -> List.length values = len df.
Proof.
  unfold getitem, len. destruct (index_of label (columns df)); intros E; inversion E.
  apply length_map.
Qed.

Lemma getitem_has_column (df : DataFrame) (label : string) :
  has_column df label = false <-> getitem df label = Raise (Exn KeyError (repr_str label)).
Proof.
  unfold has_column, getitem. destruct (index_of label (columns df)); split; congruence.
Qed.

Lemma numbers_map_Num (xs : list float) : numbers (map Num xs) = Some xs.
Proof. induction xs as [| x xs IH]; simpl; [reflexivity | rewrite IH; reflexivity]. Qed.

Lemma numbers_spec (values : Series) (xs : list float) :
  numbers values = Some xs <-> values = map Num xs.
Proof.
  split; [| intros ->; apply numbers_map_Num].
  revert xs. induction values as [| c values IH]; intros xs; simpl.
  - intros E. injection E as <-. reflexivity.
  - destruct c as [x | s]; [| discriminate].
    destruct (numbers values) as [ys |]; simpl; [| discriminate].
    intros E. injection E as <-. simpl. f_equal. apply IH. reflexivity.
Qed.

Lemma ge_map_Num (xs : list float) (t : float) :
  ge (map Num xs) t = Ok (map (fun x => fge x t) xs).
Proof. induction xs as [| x xs IH]; simpl; [reflexivity | rewrite IH; reflexivity]. Qed.

Lemma sum_bool_map {A} (f : A -> bool) (xs : list A) :
  sum_bool (map f xs) = List.length (filter f xs).
Proof. induction xs as [| x xs IH]; simpl; [reflexivity |]. destruct (f x); simpl; lia. Qed.

Lemma fge_NaN_l (t : float) : fge NaN t = false.
Proof. reflexivity. Qed.



Lemma count_ge_le (xs : list float) (t : float) : (count_ge xs t <= List.length xs)%nat.
Proof. apply filter_length_le. Qed.

Lemma fadd_zero_r (x : float) : fadd x (Fin 0) = x.
Proof.
  destruct x as [| | | [n d]]; try reflexivity.
  simpl. unfold Qplus. simpl. f_equal. f_equal; lia.
Qed.

Lemma masked_sum (xs : list float) (acc : float) :
  fold_left fadd (map (fun x => if isnan x then Fin 0 else x) xs) acc
  = fold_left fadd (dropna xs) acc.
Proof.
  revert acc. induction xs as [| x xs IH]; intros acc; simpl; [reflexivity |].
  destruct x; simpl; rewrite ?fadd_zero_r; apply IH.
Qed.

Lemma of_nat_nonzero (n : nat) : (0 < n)%nat -> Qeq_bool (inject_Z (Z.of_nat n)) 0 = false.
Proof.
  intros Hn. destruct (Qeq_bool _ _) eqn:E; [| reflexivity].
  apply Qeq_bool_eq in E. unfold Qeq in E. simpl in E. lia.
Qed.

(** [nanmean] is the arithmetic mean of the entries that are not NaN. *)
Lemma nanmean_dropna (xs : list float) : nanmean xs = arithmetic_mean (dropna xs).
Proof.
  unfold nanmean, arithmetic_mean. rewrite masked_sum. fold (dropna xs).
  destruct (dropna xs) as [| y ys] eqn:D; simpl (0 <? _)%nat; [reflexivity |].
  reflexivity.
Qed.

Lemma dropna_all_nan (xs : list float) :
  (forall x, In x xs -> x = NaN) -> dropna xs = [].
Proof.
  intros A. unfold dropna. induction xs as [| x xs IH]; simpl; [reflexivity |].
  rewrite (A x) by (left; reflexivity). simpl. apply IH. intros y Hy. apply A. right. exact Hy.
Qed.

Lemma fold_fadd_Fin (qs : list Q) (acc : Q) :
  fold_left fadd (map Fin qs) (Fin acc) = Fin (fold_left Qplus qs acc).
Proof. revert acc. induction qs as [| q qs IH]; intros acc; simpl; [reflexivity | apply IH]. Qed.

Lemma ratio_Qdiv (count total : nat) :
  (0 < total)%nat ->
  (inject_Z (Z.of_nat count) / inject_Z (Z.of_nat total) == ratio count total)%Q.
Proof.
  intros Ht. unfold ratio. rewrite (Qmake_Qdiv (Z.of_nat count) (Pos.of_nat total)).
  replace (Zpos (Pos.of_nat total)) with (Z.of_nat total); [reflexivity |].
  destruct total; [lia |]. rewrite <- Pos.of_nat_succ, Zpos_P_of_succ_nat. lia.
Qed.

Lemma count_column_numbers (entries : list (option Z)) :
  count_column entries = map Num (map count_cell entries).
Proof. unfold count_column. rewrite map_map. reflexivity. Qed.

(** The entries of a column of counts that are not NaN are the counts that
    are there. *)
Lemma dropna_count_cells (entries : list (option Z)) :
  dropna (map count_cell entries) = map Fin (map inject_Z (present entries)).
Proof.
  unfold dropna. induction entries as [| [z |] entries IH]; simpl; [reflexivity | | exact IH].
  f_equal. exact IH.
Qed.

Lemma fold_Qplus_inject_Z (zs : list Z) (acc : Q) :
  (fold_left Qplus (map inject_Z zs) acc == acc + inject_Z (sum_of zs))%Q.
Proof.
  revert acc. induction zs as [| z zs IH]; intros acc; simpl.
  - ring.
  - rewrite IH, inject_Z_plus. ring.
Qed.

(** The quotient that [nanmean] forms on counts is their mean. *)
Lemma mean_of_counts (zs : list Z) :
  zs <> [] ->
  (fold_left Qplus (map inject_Z zs) 0
   / inject_Z (Z.of_nat (List.length (map inject_Z zs))) == exact_mean zs)%Q.
Proof.
  intros Hzs. rewrite fold_Qplus_inject_Z, length_map. unfold exact_mean.
  rewrite (Qmake_Qdiv (sum_of zs) (Pos.of_nat (List.length zs))).
  replace (Zpos (Pos.of_nat (List.length zs))) with (Z.of_nat (List.length zs)).
  - rewrite Qplus_0_l. reflexivity.
  - destruct zs as [| z zs]; [congruence |]. cbn [List.length].
    rewrite <- Pos.of_nat_succ, Zpos_P_of_succ_nat. lia.
Qed.

(** The quotient of two counts as [compute] divides them. *)
Lemma fdiv_counts (count total : nat) (ndigits : nat) :
  (0 < total)%nat ->
  round (fdiv (of_nat count) (of_nat total)) ndigits
  = Fin (round_Q (ratio count total) ndigits).
Proof.
  intros Ht. unfold of_nat, of_Z, fdiv. rewrite (of_nat_nonzero total Ht). simpl.
  f_equal. apply round_Q_compat, ratio_Qdiv, Ht.
Qed.

End Columns.

(** ** StatFormula.compute *)

Section ComputeProperties.
Context `{Library}.
Import StatFormula.

Lemma compute_body_threshold (df : DataFrame) (code : string) (t : float) (xs : list float) :
  getitem df code = Ok (map Num xs) ->
  compute_body (mk df code (Some t))
  = Ok (round (fdiv (of_nat (count_ge xs t)) (of_nat (List.length xs))) 2).
Proof.
  intros G. unfold compute_body. simpl. rewrite G. simpl.
  rewrite ge_map_Num. simpl. rewrite sum_bool_map, length_map. reflexivity.
Qed.

Lemma compute_body_average (df : DataFrame) (code : string) (xs : list float) :
  getitem df code = Ok (map Num xs) ->
  compute_body (mk df code None) = Ok (round (arithmetic_mean (dropna xs)) 2).
Proof.
  intros G. unfold compute_body. simpl. rewrite G. simpl.
  unfold mean. rewrite numbers_map_Num. simpl. rewrite nanmean_dropna. reflexivity.
Qed.

Lemma compute_threshold_of_numbers
    (df : DataFrame) (code : string) (t : float) (xs : list float) :
  getitem df code = Ok (map Num xs) ->
  (0 < List.length xs)%nat ->
  compute (mk df code (Some t))
  = Ok (Fin (round_Q (ratio (count_ge xs t) (List.length xs)) 2)).
Proof.
  intros G Hlen. unfold compute. rewrite (compute_body_threshold df code t xs G).
  rewrite fdiv_counts by exact Hlen. reflexivity.
Qed.

(** Average mode on a column of counts: the value before and after
    [round]. *)
Lemma compute_average_of_counts (df : DataFrame) (code : string) (entries : list (option Z)) :
  getitem df code = Ok (count_column entries) ->
  present entries <> [] ->
  exists q : Q,
    (q == exact_mean (present entries))%Q
    /\ compute (mk df code None) = Ok (Fin (round_Q q 2)).
Proof.
  intros G Hp. rewrite count_column_numbers in G.
  exists (fold_left Qplus (map inject_Z (present entries)) 0
          / inject_Z (Z.of_nat (List.length (map inject_Z (present entries)))))%Q.
  split; [apply mean_of_counts, Hp |].
  unfold compute. rewrite (compute_body_average df code _ G), dropna_count_cells.
  unfold arithmetic_mean. rewrite fold_fadd_Fin, length_map. unfold of_nat, of_Z, fdiv.
  rewrite of_nat_nonzero
    by (rewrite length_map; destruct (present entries); [congruence | simpl; lia]).
  reflexivity.
Qed.

(** C1.  Threshold mode.  When the table has the stat column, with numbers
    (or NaN) in it, and at least one row, [compute] returns the number of rows
    whose value is >= the threshold over the number of rows, rounded to 2
    decimals: a number of hundredths, at most half a hundredth from the
    quotient. *)
Theorem compute_threshold_is_rounded_ratio
    (df : DataFrame) (code : string) (t : float) (values : Series) (xs : list float) :
  getitem df code = Ok values ->
  numbers values = Some xs ->
  (0 < len df)%nat ->
  exists (r : Q) (hundredths : Z),
    compute (mk df code (Some t)) = Ok (Fin r)
    /\ (r == hundredths # 100)%Q
    /\ (Qabs (r - ratio (count_ge xs t) (len df)) <= 1 # 200)%Q.
Proof.
  intros G N Hlen. apply numbers_spec in N. subst values.
  pose proof (getitem_length _ _ _ G) as L. rewrite length_map in L.
  rewrite <- L in *.
  exists (round_Q (ratio (count_ge xs t) (List.length xs)) 2),
         (rint (ratio (count_ge xs t) (List.length xs) * inject_Z 100)).
  split; [apply compute_threshold_of_numbers; assumption |].
  split; [apply round_Q_hundredths | apply round_Q_nearest].
Qed.

(** C2.  Average mode.  When the stat column holds counts, some of them
    missing (NaN), [compute] returns the mean of the counts that are there,
    rounded to 2 decimals: a number of hundredths, at most half a hundredth
    from [(z1 + ... + zn) / n]; and NaN when every entry is missing. *)
Theorem compute_average_is_rounded_mean
    (df : DataFrame) (code : string) (entries : list (option Z)) :
  getitem df code = Ok (count_column entries) ->
  within_limit entries = true ->
  (present entries <> [] ->
     exists (r : Q) (hundredths : Z),
       compute (mk df code None) = Ok (Fin r)
       /\ (r == hundredths # 100)%Q
       /\ (Qabs (r - exact_mean (present entries)) <= 1 # 200)%Q)
  /\ (present entries = [] -> compute (mk df code None) = Ok NaN).
Proof.
  intros G _. split.
  - intros Hp. destruct (compute_average_of_counts df code entries G Hp) as (q & E & C).
    exists (round_Q q 2), (rint (q * inject_Z 100)).
    split; [exact C |].
    split; [apply round_Q_hundredths |].
    rewrite <- E. apply round_Q_nearest.
  - intros Hp. rewrite count_column_numbers in G.
    unfold compute. rewrite (compute_body_average df code _ G), dropna_count_cells, Hp.
    reflexivity.
Qed.

(** C3.  A stat that is not a column of the table: [compute] raises
    ValueError naming the stat, whatever the table holds and whether or not
    a threshold is given. *)
Theorem compute_unknown_stat
    (df : DataFrame) (code : string) (threshold : option float) :
  has_column df code = false ->
  compute (mk df code threshold)
  = Raise (Exn ValueError ("Stat '" ++ code ++ "' not found in game data.")).
Proof.
  intros Hc. apply getitem_has_column in Hc.
  unfold compute, compute_body. simpl. rewrite Hc. reflexivity.
Qed.

End ComputeProperties.

Lemma compute_threshold_example :
  (getitem threshold_example "PTS"
   = Ok (map Num [whole 18; whole 22; whole 25; whole 15; whole 30])
   /\ (0 < len threshold_example)%nat
   /\ StatFormula.compute (StatFormula.init threshold_example "pts" (Some (whole 20)))
      = Ok (Fin (3 # 5))
   /\ exists (r : Q) (hundredths : Z),
        StatFormula.compute (StatFormula.mk threshold_example "PTS" (Some (whole 20)))
        = Ok (Fin r)
        /\ (r == hundredths # 100)%Q /\ (Qabs (r - (3 # 5)) <= 1 # 200)%Q)
  /\ (getitem one_in_three "PTS" = Ok (map Num [whole 20; whole 12; whole 18])
      /\ (0 < len one_in_three)%nat
      /\ StatFormula.compute (StatFormula.init one_in_three "pts" (Some (whole 20)))
         = Ok (Fin (33 # 100))
      /\ exists (r : Q) (hundredths : Z),
           StatFormula.compute (StatFormula.mk one_in_three "PTS" (Some (whole 20)))
           = Ok (Fin r)
           /\ (r == hundredths # 100)%Q /\ (Qabs (r - (1 # 3)) <= 1 # 200)%Q).
Proof.
  split.
  - split; [reflexivity | split; [vm_compute; lia | split; [reflexivity |]]].
    exact (compute_threshold_is_rounded_ratio threshold_example "PTS" (whole 20)
             (map Num [whole 18; whole 22; whole 25; whole 15; whole 30])
             [whole 18; whole 22; whole 25; whole 15; whole 30]
             eq_refl eq_refl ltac:(vm_compute; lia)).
  - split; [reflexivity | split; [vm_compute; lia | split; [reflexivity |]]].
    exact (compute_threshold_is_rounded_ratio one_in_three "PTS" (whole 20)
             (map Num [whole 20; whole 12; whole 18])
             [whole 20; whole 12; whole 18]
             eq_refl eq_refl ltac:(vm_compute; lia)).
Defined.

Lemma compute_average_example :
  (getitem average_example "PTS" = Ok (count_column [Some 10; Some 20; Some 30]%Z)
   /\ within_limit [Some 10; Some 20; Some 30]%Z = true
   /\ StatFormula.compute (StatFormula.init average_example "pts" None) = Ok (Fin 20)
   /\ exists (r : Q) (hundredths : Z),
        StatFormula.compute (StatFormula.mk average_example "PTS" None) = Ok (Fin r)
        /\ (r == hundredths # 100)%Q /\ (Qabs (r - (60 # 3)) <= 1 # 200)%Q)
  /\ (getitem mean_with_missing "PTS" = Ok (count_column [Some 10; None; Some 10; Some 11]%Z)
      /\ within_limit [Some 10; None; Some 10; Some 11]%Z = true
      /\ StatFormula.compute (StatFormula.init mean_with_missing "pts" None)
         = Ok (Fin (1033 # 100))
      /\ exists (r : Q) (hundredths : Z),
           StatFormula.compute (StatFormula.mk mean_with_missing "PTS" None) = Ok (Fin r)
           /\ (r == hundredths # 100)%Q /\ (Qabs (r - (31 # 3)) <= 1 # 200)%Q)
  /\ (getitem all_missing "PTS" = Ok (count_column [None; None])
      /\ within_limit [None; None] = true
      /\ StatFormula.compute (StatFormula.init all_missing "pts" None) = Ok NaN).
Proof.
  split; [| split].
  - split; [reflexivity | split; [reflexivity | split; [reflexivity |]]].
    apply (proj1 (compute_average_is_rounded_mean average_example "PTS"
                    [Some 10; Some 20; Some 30]%Z eq_refl eq_refl)).
    discriminate.
  - split; [reflexivity | split; [reflexivity | split; [reflexivity |]]].
    apply (proj1 (compute_average_is_rounded_mean mean_with_missing "PTS"
                    [Some 10; None; Some 10; Some 11]%Z eq_refl eq_refl)).
    discriminate.
  - split; [reflexivity | split; [reflexivity |]].
    exact (proj2 (compute_average_is_rounded_mean all_missing "PTS"
                    [None; None] eq_refl eq_refl) eq_refl).
Defined.

Lemma compute_unknown_stat_example :
  has_column average_example "AST" = false
  /\ StatFormula.compute (StatFormula.init average_example "ast" (Some (whole 5)))
     = Raise (Exn ValueError "Stat 'AST' not found in game data.").
Proof.
  split; [reflexivity |].
  exact (compute_unknown_stat average_example "AST" (Some (whole 5)) eq_refl).
Defined.

(** ** Missing values in the two modes *)

Section MissingValues.
Context `{Library}.
Import StatFormula.

Lemma Zpos_of_nat (n : nat) : (0 < n)%nat -> Zpos (Pos.of_nat n) = Z.of_nat n.
Proof.
  intros Hn. rewrite <- (positive_nat_Z (Pos.of_nat n)), Nat2Pos.id by lia. reflexivity.
Qed.

Lemma ratio_bounds (count total : nat) :
  (0 < total)%nat -> (count <= total)%nat -> (0 <= ratio count total <= 1)%Q.
Proof.
  intros Ht Hc. unfold ratio, Qle. simpl. rewrite (Zpos_of_nat total Ht). lia.
Qed.



Lemma round_Q_unit_interval (q : Q) (ndigits : nat) :
  (0 <= q <= 1)%Q -> (0 <= round_Q q ndigits <= 1)%Q.
Proof.
  intros [L U]. split.
  - apply Qle_trans with (round_Q (inject_Z 0) ndigits);
      [rewrite round_Q_inject_Z; apply Qle_refl | apply round_Q_mono; exact L].
  - apply Qle_trans with (round_Q (inject_Z 1) ndigits);
      [apply round_Q_mono; exact U | rewrite round_Q_inject_Z; apply Qle_refl].
Qed.



End MissingValues.


(** ** NBAData.lookup_player_id *)

Section LookupProperties.
Context `{Library}.
Import NbaApi NBAData.

Lemma matching_title (input_name : string) (directory : list player) :
  filter (fun p => String.eqb (lower (full_name p)) (lower (title input_name))) directory
  = matching input_name directory.
Proof. unfold matching. rewrite lower_title. reflexivity. Qed.


End LookupProperties.



(** ** NBAData.get_career_averages *)

Section CareerProperties.
Context `{Library}.
Import NbaApi NBAData.

Lemma getitem_cons_not_empty (df : DataFrame) (label : string) (c : cell) (rest : Series) :
  getitem df label = Ok (c :: rest) -> empty df = false.
Proof.
  unfold getitem, empty.
  destruct (columns df) as [| l ls]; [discriminate |].
  destruct (index_of label (l :: ls)); [| discriminate].
  destruct (rows df); [discriminate | reflexivity].
Qed.

Lemma per_game_value (df : DataFrame) (label : string) (total n : Q) (others : Series) :
  getitem df label = Ok (Num (Fin total) :: others) ->
  (0 < n)%Q ->
  per_game df (Num (Fin n)) label = Ok (Fin (round_Q (total / n) 1)).
Proof.
  intros G Hn. unfold per_game. rewrite G. simpl.
  destruct (Qeq_bool n 0) eqn:E; [| reflexivity].
  apply Qeq_bool_eq in E. rewrite E in Hn. discriminate.
Qed.

(** C4.  The averages of a career.  [df] is the second frame of the career
    statistics.  The mapping is empty when [df] has no row, and when its first
    row reports 0 games played.  When it reports [n > 0] games, the mapping
    gives to each of PTS, AST, REB, BLK, STL, in this order, the total of the
    first row divided by [n] and rounded to 1 decimal, a tie going to the even
    digit as [round] does. *)
Theorem career_averages_per_game
    (api : Provider) (self : t) (frames : list DataFrame) (df : DataFrame) :
  PlayerCareerStats api (player_id self) = Ok frames ->
  nth_error frames 1 = Some df ->
  (empty df = true -> fst (run (get_career_averages api self)) = Ok [])
  /\ (forall (n : Q) (rest : Series),
        getitem df "GP" = Ok (Num (Fin n) :: rest) -> (n == 0)%Q ->
        fst (run (get_career_averages api self)) = Ok [])
  /\ (forall (n : Q) (rest : Series) (total : string -> Q),
        getitem df "GP" = Ok (Num (Fin n) :: rest) -> (0 < n)%Q ->
        (forall label, In label VALID_STATS ->
           exists others, getitem df label = Ok (Num (Fin (total label)) :: others)) ->
        fst (run (get_career_averages api self))
        = Ok (map (fun label => (label, Fin (round_Q (total label / n) 1))) VALID_STATS)).
Proof.
  intros A F.
  unfold run, get_career_averages, try_except, bind, request, lift, list_item.
  rewrite A, F.
  split; [| split].
  - intros E. rewrite E. reflexivity.
  - intros n rest G Z. destruct (empty df); [reflexivity |].
    rewrite G. simpl. apply Qeq_bool_iff in Z. rewrite Z. reflexivity.
  - intros n rest total G Hn T.
    rewrite (getitem_cons_not_empty _ _ _ _ G), G. simpl.
    destruct (Qeq_bool n 0) eqn:E.
    { apply Qeq_bool_eq in E. rewrite E in Hn. discriminate. }
    destruct (T "PTS") as [o1 G1]; [simpl; tauto |].
    destruct (T "AST") as [o2 G2]; [simpl; tauto |].
    destruct (T "REB") as [o3 G3]; [simpl; tauto |].
    destruct (T "BLK") as [o4 G4]; [simpl; tauto |].
    destruct (T "STL") as [o5 G5]; [simpl; tauto |].
    rewrite (per_game_value _ _ _ _ _ G1 Hn), (per_game_value _ _ _ _ _ G2 Hn),
      (per_game_value _ _ _ _ _ G3 Hn), (per_game_value _ _ _ _ _ G4 Hn),
      (per_game_value _ _ _ _ _ G5 Hn).
    reflexivity.
Qed.

End CareerProperties.

Lemma career_averages_example :
  NbaApi.PlayerCareerStats example_provider (NBAData.player_id lebron)
  = Ok [seasons; career_totals]
  /\ fst (NbaApi.run (NBAData.get_career_averages example_provider lebron))
     = Ok [("PTS", Fin (1 # 5)); ("AST", Fin (5 # 2)); ("REB", Fin (9 # 5));
           ("BLK", Fin 0); ("STL", Fin (4 # 5))].
Proof.
  split; [reflexivity |].
  rewrite (proj2 (proj2 (career_averages_per_game example_provider lebron
                           [seasons; career_totals] career_totals eq_refl eq_refl))
             4 [] example_total eq_refl eq_refl).
  - reflexivity.
  - intros label [<- | [<- | [<- | [<- | [<- | []]]]]]; eexists; reflexivity.
Defined.

(** ** NBAData.get_recent_games *)

Section InactiveProperties.
Context `{Library}.
Import NbaApi NBAData.

(** C5.  For a player who is not active, [get_recent_games] raises
    ValueError and leaves the record of the calls to the provider as it was:
    no request is made, whatever the season and the number of games. *)
Theorem recent_games_inactive
    (api : Provider) (self : t) (season : string) (num_games : Z) (calls : list call) :
  is_active self = false ->
  get_recent_games api self season num_games calls
  = (Raise (Exn ValueError
              (name self ++ " is not an active player. Recent game logs unavailable.")),
     calls).
Proof.
  intros I. unfold get_recent_games. rewrite I. reflexivity.
Qed.

End InactiveProperties.

Lemma recent_games_inactive_example :
  NBAData.is_active retired = false
  /\ NbaApi.run (NBAData.get_recent_games example_provider retired "2024-25" 5)
     = (Raise (Exn ValueError
                 "Michael Jordan is not an active player. Recent game logs unavailable."),
        []).
Proof.
  split; [reflexivity |].
  exact (recent_games_inactive example_provider retired "2024-25" 5 [] eq_refl).
Defined.

Section Tables.
Context `{Library}.
Import NBAData.

Lemma zip_with_length {A B C} (f : A -> B -> C) (xs : list A) (ys : list B) :
  List.length (zip_with f xs ys) = Nat.min (List.length xs) (List.length ys).
Proof.
  revert ys. induction xs as [| x xs IH]; intros [| y ys]; simpl; try reflexivity.
  rewrite IH. reflexivity.
Qed.

Lemma zip_with_map_r {A B C} (f : A -> B -> C) (g : A -> B) (xs : list A) :
  zip_with f xs (map g xs) = map (fun x => f x (g x)) xs.
Proof. induction xs as [| x xs IH]; simpl; [reflexivity | rewrite IH; reflexivity]. Qed.

Lemma head_columns (n : Z) (df : DataFrame) : columns (head n df) = columns df.
Proof. reflexivity. Qed.

Lemma head_len_nonneg (n : Z) (df : DataFrame) :
  (0 <= n)%Z -> len (head n df) = Nat.min (Z.to_nat n) (len df).
Proof.
  intros Hn. unfold head, len. simpl.
  destruct (Z.leb_spec 0 n); [| lia]. apply length_firstn.
Qed.



Lemma select_inversion (df df' : DataFrame) (labels : list string) :
  select df labels = Ok df' -> columns df' = labels /\ len df' = len df.
Proof.
  unfold select. destruct (forallb (has_column df) labels); [| discriminate].
  intros E. injection E as <-. split; [reflexivity |]. unfold len. simpl. apply length_map.
Qed.

(** One turn of the loop of [get_recent_games], record by record. *)
Lemma coerce_step (df : DataFrame) (col : string) (column : Series) :
  getitem df col = Ok column ->
  exists i, index_of col (columns df) = Some i
            /\ setitem df col (to_numeric column)
               = mkDataFrame (columns df) (map (coerce_at i) (rows df)).
Proof.
  unfold getitem, setitem. destruct (index_of col (columns df)) as [i |]; [| discriminate].
  intros E. injection E as <-. exists i. split; [reflexivity |].
  f_equal. unfold to_numeric. rewrite map_map.
  rewrite (zip_with_map_r (fun record c => replace_at i c record)). reflexivity.
Qed.

Lemma is_number_to_numeric (c : cell) : is_number (to_numeric_cell c) = true.
Proof. destruct c as [x | s]; simpl; [reflexivity | destruct (parse_numeric s); reflexivity]. Qed.

Lemma cell_at_replace_same (i : nat) (c : cell) (record : list cell) :
  is_number c = true -> is_number (cell_at i (replace_at i c record)) = true.
Proof.
  intros Hc. revert i. unfold cell_at.
  induction record as [| hd tl IH]; intros [| j]; simpl; try reflexivity; [exact Hc | apply IH].
Qed.

Lemma cell_at_replace_other (i j : nat) (c : cell) (record : list cell) :
  i <> j -> cell_at i (replace_at j c record) = cell_at i record.
Proof.
  unfold cell_at. revert i j.
  induction record as [| hd tl IH]; intros [| i] [| j] N; simpl; try reflexivity;
    [contradiction | apply IH; congruence].
Qed.

Lemma coerce_at_numeric (i j : nat) (record : list cell) :
  i = j \/ is_number (cell_at i record) = true ->
  is_number (cell_at i (coerce_at j record)) = true.
Proof.
  unfold coerce_at. destruct (Nat.eq_dec i j) as [-> | N].
  - intros _. apply cell_at_replace_same, is_number_to_numeric.
  - intros [E | E]; [contradiction |]. rewrite cell_at_replace_other by exact N. exact E.
Qed.

(** The loop keeps the header and the number of rows, and leaves numbers in
    every column it went through. *)
Lemma coerce_columns_inversion (labels : list string) (df df' : DataFrame) :
  coerce_columns df labels = Ok df' ->
  columns df' = columns df
  /\ len df' = len df
  /\ (forall l i, index_of l (columns df) = Some i ->
        In l labels \/ numeric_at i df -> numeric_at i df').
Proof.
  revert df. induction labels as [| col rest IH]; intros df; simpl.
  - intros E. injection E as <-. split; [reflexivity | split; [reflexivity |]].
    intros l i _ [[] | N]. exact N.
  - destruct (getitem df col) as [column | e] eqn:G; simpl; [| discriminate].
    destruct (coerce_step df col column G) as (j & Ij & S). rewrite S.
    intros E. destruct (IH _ E) as (C & L & N). simpl in C.
    split; [exact C | split].
    + rewrite L. unfold len. simpl. apply length_map.
    + intros l i Il Hl. apply (N l i Il).
      destruct (in_dec string_dec l rest) as [R | R]; [left; exact R | right].
      intros record Hr. simpl in Hr. apply in_map_iff in Hr. destruct Hr as (r0 & <- & Hr0).
      apply coerce_at_numeric.
      destruct Hl as [[<- | Hl] | Hl].
      * left. congruence.
      * contradiction.
      * right. apply Hl, Hr0.
Qed.


Lemma numeric_at_column (df : DataFrame) (label : string) (i : nat) :
  index_of label (columns df) = Some i -> numeric_at i df -> numeric_column df label.
Proof.
  intros I N. unfold numeric_column, getitem. rewrite I.
  unfold numeric_at in N. induction (rows df) as [| record tl IH].
  - exists []. reflexivity.
  - destruct IH as [xs E]; [intros r Hr; apply N; right; exact Hr |].
    pose proof (N record (or_introl eq_refl)) as Hn.
    destruct (cell_at i record) as [x | s] eqn:C; [| discriminate].
    exists (x :: xs). simpl. rewrite C. injection E as E. rewrite E. reflexivity.
Qed.

End Tables.

Section RecentGamesProperties.
Context `{Library}.
Import NbaApi NBAData.

Lemma not_empty_len (df : DataFrame) : empty df = false -> (0 < len df)%nat.
Proof.
  unfold empty, len. destruct (columns df); [discriminate |].
  destruct (rows df); [discriminate | simpl; lia].
Qed.


(** What a table returned by [get_recent_games] went through. *)
Lemma recent_games_inversion
    (api : Provider) (self : t) (season : string) (n : Z) (calls : list call)
    (table : DataFrame) :
  fst (get_recent_games api self season n calls) = Ok table ->
  exists frames log selected,
    is_active self = true
    /\ PlayerGameLog api (player_id self) season = Ok frames
    /\ nth_error frames 0 = Some log
    /\ empty log = false
    /\ select log recent_games_columns = Ok selected
    /\ coerce_columns (head n selected) VALID_STATS = Ok table.
Proof.
  unfold get_recent_games, try_except, bind, request, lift, list_item, raise, ret.
  destruct (is_active self); cbn [negb]; [| simpl; discriminate].
  destruct (PlayerGameLog api (player_id self) season) as [frames | e] eqn:G;
    [| simpl; discriminate].
  destruct (nth_error frames 0) as [log |] eqn:F; [| simpl; discriminate].
  destruct (empty log) eqn:E; [simpl; discriminate |].
  fold recent_games_columns.
  destruct (select log recent_games_columns) as [selected | e] eqn:S; [| simpl; discriminate].
  fold VALID_STATS.
  destruct (coerce_columns (head n selected) VALID_STATS) as [df |] eqn:C;
    [| simpl; discriminate].
  simpl. intros T. injection T as <-.
  exists frames, log, selected. repeat split; assumption || reflexivity.
Qed.


End RecentGamesProperties.



(** ** The empty table *)

Section EmptyTable.
Context `{Library}.
Import NbaApi NBAData.

Lemma getitem_no_row (df : DataFrame) (code : string) :
  has_column df code = true -> len df = 0%nat -> getitem df code = Ok [].
Proof.
  unfold has_column, getitem, len.
  destruct (index_of code (columns df)); [| discriminate].
  intros _ L. destruct (rows df); [reflexivity | discriminate].
Qed.

(** C8, as the code has it.  In threshold mode [compute] divides the count
    by the number of rows without a guard: on a table that has the stat column
    and no row the result is NaN, the 0/0 of numpy, and neither an exception
    nor 0.0.  A table that [get_recent_games] returned for a count of at least
    1 has a row, and numbers in its five stat columns: on it [compute] returns
    a number of [0, 1] for every stat of [VALID_STATS] and every threshold, so
    the empty case does not arise in the flow of the driver. *)
Theorem compute_on_empty_table :
  (forall (df : DataFrame) (code : string) (t : float),
      has_column df code = true -> len df = 0%nat ->
      StatFormula.compute (StatFormula.mk df code (Some t)) = Ok NaN)
  /\ (forall (api : Provider) (self : t) (season : string) (n : Z) (calls : list call)
             (table : DataFrame),
        (1 <= n)%Z ->
        fst (get_recent_games api self season n calls) = Ok table ->
        (0 < len table)%nat
        /\ forall (code : string) (t : float),
             In code VALID_STATS ->
             exists p : Q,
               StatFormula.compute (StatFormula.mk table code (Some t)) = Ok (Fin p)
               /\ (0 <= p <= 1)%Q).
Proof.
  split.
  - intros df code t Hc L.
    unfold StatFormula.compute, StatFormula.compute_body. simpl.
    rewrite (getitem_no_row df code Hc L). reflexivity.
  - intros api self season n calls table Hn R.
    destruct (recent_games_inversion _ _ _ _ _ _ R)
      as (frames & log & selected & _ & _ & _ & E & S & C).
    destruct (select_inversion _ _ _ S) as [Cs Ls].
    destruct (coerce_columns_inversion _ _ _ C) as (Ct & Lt & Nt).
    assert (Hrows : (0 < len table)%nat).
    { rewrite Lt, head_len_nonneg, Ls by lia. pose proof (not_empty_len log E). lia. }
    split; [exact Hrows |].
    intros code t Hcode.
    assert (Hi : exists i, index_of code (columns (head n selected)) = Some i).
    { rewrite head_columns, Cs.
      destruct Hcode as [<- | [<- | [<- | [<- | [<- | []]]]]]; eexists; reflexivity. }
    destruct Hi as [i Hi].
    destruct (numeric_at_column table code i) as [xs G].
    { rewrite Ct. exact Hi. }
    { apply (Nt code i Hi). left. exact Hcode. }
    pose proof (getitem_length _ _ _ G) as L. rewrite length_map in L.
    exists (round_Q (ratio (count_ge xs t) (List.length xs)) 2). split.
    + apply compute_threshold_of_numbers; [exact G | lia].
    + apply round_Q_unit_interval, ratio_bounds; [lia | apply count_ge_le].
Qed.

End EmptyTable.

(** C8, as stated, fails: on the table with the column PTS and no row,
    [compute] with a threshold raises nothing and returns NaN. *)
Lemma compute_on_empty_table_is_nan :
  len (one_column "PTS" []) = 0%nat
  /\ StatFormula.compute (StatFormula.init (one_column "PTS" []) "PTS" (Some (whole 20)))
     = Ok NaN
  /\ is_error (StatFormula.compute
                 (StatFormula.init (one_column "PTS" []) "PTS" (Some (whole 20)))) = false.
Proof. repeat split. Qed.

(** ** The sentence of the driver *)

(** C9, on the code.  With a threshold, the driver writes the sentence with
    the three characters that the source file has between "chance of" and the
    threshold, where the interface documents the sign >=: for a probability of
    0.60, a threshold of 25 and PTS, the line is not the documented one. *)
Theorem main_report_threshold_sentence :
  (forall (player_name : string) (games : Z) (stat : string) (threshold p : float),
      main_report player_name games stat (Some threshold) p
      = (newline ++ "Prediction: " ++ player_name ++ " has a "
         ++ PyFormat.format_f 1 (fmul p (Fin 100)) ++ "% chance of â‰¥ "
         ++ PyFormat.float_str threshold ++ " " ++ stat ++ "." ++ newline)%string)
  /\ main_report (title "LeBron James") 5 "PTS" (Some (Fin 25)) (Fin (3 # 5))
     = (newline ++ "Prediction: Lebron James has a 60.0% chance of â‰¥ 25.0 PTS."
        ++ newline)%string
  /\ prediction_sentence (title "LeBron James") (Fin 60) (Fin 25) "PTS"
     = "Prediction: Lebron James has a 60.0% chance of ≥ 25.0 PTS."
  /\ main_report (title "LeBron James") 5 "PTS" (Some (Fin 25)) (Fin (3 # 5))
     <> (newline ++ prediction_sentence (title "LeBron James") (Fin 60) (Fin 25) "PTS"
         ++ newline)%string.
Proof.
  split; [reflexivity | split; [reflexivity | split; [reflexivity |]]].
  vm_compute. discriminate.
Qed.

(** The run of the driver for "LeBron James", 5 games, PTS and a threshold
    of 25, on the five games of [five_games]: the player is found and active,
    three games of five reach the threshold, and the line is written. *)
Lemma driver_example :
  exists player table,
    fst (NbaApi.run (NBAData.init five_games_provider "LeBron James")) = Ok player
    /\ NBAData.name player = "Lebron James"
    /\ NBAData.is_active player = true
    /\ fst (NbaApi.run (NBAData.get_recent_games five_games_provider player "2024-25" 5))
       = Ok table
    /\ len table = 5%nat
    /\ StatFormula.compute (StatFormula.init table "PTS" (Some (Fin 25))) = Ok (Fin (3 # 5))
    /\ main_report (NBAData.name player) 5 "PTS" (Some (Fin 25)) (Fin (3 # 5))
       = (newline ++ "Prediction: Lebron James has a 60.0% chance of â‰¥ 25.0 PTS."
          ++ newline)%string.
Proof.
  eexists. eexists.
  split; [vm_compute; reflexivity |].
  split; [reflexivity |]. split; [reflexivity |].
  split; [vm_compute; reflexivity |].
  repeat split.
Qed.

(** * Further properties *)

(** ** StatFormula.compute: thresholds, order of the rows, bounds *)

Section ComputeFurther.
Context `{Library}.
Import StatFormula.

Lemma filter_length_implied {A} (f g : A -> bool) (xs : list A) :
  (forall x, f x = true -> g x = true) ->
  (List.length (filter f xs) <= List.length (filter g xs))%nat.
Proof.
  intros I. induction xs as [| x xs IH]; simpl; [lia |].
  destruct (f x) eqn:F.
  - rewrite (I x F). simpl. lia.
  - destruct (g x); simpl; lia.
Qed.

Lemma fge_threshold_mono (x : float) (a b : Q) :
  (a <= b)%Q -> fge x (Fin b) = true -> fge x (Fin a) = true.
Proof.
  intros L. destruct x as [| | | q]; simpl; try congruence.
  rewrite !Qle_bool_iff. intros U. apply Qle_trans with b; assumption.
Qed.

Lemma ratio_mono (c1 c2 total : nat) :
  (c1 <= c2)%nat -> (ratio c1 total <= ratio c2 total)%Q.
Proof.
  intros L. unfold ratio, Qle. cbn [Qnum Qden]. apply Z.mul_le_mono_nonneg_r; lia.
Qed.

(** X1.  Threshold mode: on one table, a higher threshold never gives a
    higher result. *)
Theorem compute_threshold_antitone
    (df : DataFrame) (code : string) (a b : Q) (xs : list float) :
  getitem df code = Ok (map Num xs) ->
  (0 < List.length xs)%nat ->
  (a <= b)%Q ->
  exists pa pb : Q,
    compute (mk df code (Some (Fin a))) = Ok (Fin pa)
    /\ compute (mk df code (Some (Fin b))) = Ok (Fin pb)
    /\ (pb <= pa)%Q.
Proof.
  intros G Hlen L.
  exists (round_Q (ratio (count_ge xs (Fin a)) (List.length xs)) 2),
         (round_Q (ratio (count_ge xs (Fin b)) (List.length xs)) 2).
  split; [apply compute_threshold_of_numbers; assumption |].
  split; [apply compute_threshold_of_numbers; assumption |].
  apply round_Q_mono, ratio_mono. unfold count_ge.
  apply filter_length_implied. intros x. apply fge_threshold_mono, L.
Qed.

Lemma ge_some_string (values : Series) (t : float) :
  numbers values = None -> ge values t = Raise (Exn TypeError (unsupported_operand ">=")).
Proof.
  induction values as [| c values IH]; simpl; [discriminate |].
  destruct c as [x | s]; [| reflexivity].
  destruct (numbers values); simpl; [discriminate |].
  intros _. rewrite IH; reflexivity.
Qed.

(** X2.  Threshold mode on a column that still holds a string: the
    comparison raises TypeError, which [compute] turns into RuntimeError with
    its own prefix; the stat being a column, it is not the ValueError of an
    unknown stat. *)
Theorem compute_threshold_string_cell
    (df : DataFrame) (code : string) (t : float) (values : Series) :
  getitem df code = Ok values ->
  numbers values = None ->
  compute (mk df code (Some t))
  = Raise (Exn RuntimeError ("Error computing stat formula: " ++ unsupported_operand ">=")).
Proof.
  intros G N. unfold compute, compute_body. simpl. rewrite G. simpl.
  rewrite (ge_some_string values t N). reflexivity.
Qed.

Lemma feq_refl (x : float) : feq x x.
Proof. destruct x; simpl; [exact I | exact I | exact I | reflexivity]. Qed.

Lemma feq_trans (x y z : float) : feq x y -> feq y z -> feq x z.
Proof.
  destruct x, y, z; simpl; try tauto. intros E1 E2. rewrite E1. exact E2.
Qed.

Lemma fadd_feq_l (a a' x : float) : feq a a' -> feq (fadd a x) (fadd a' x).
Proof.
  destruct a, a', x; simpl; try tauto. intros E. rewrite E. reflexivity.
Qed.

Lemma fadd_swap (a x y : float) : feq (fadd (fadd a x) y) (fadd (fadd a y) x).
Proof. destruct a, x, y; simpl; try exact I. ring. Qed.

Lemma fold_fadd_feq (xs : list float) (a a' : float) :
  feq a a' -> feq (fold_left fadd xs a) (fold_left fadd xs a').
Proof.
  revert a a'. induction xs as [| x xs IH]; intros a a' E; simpl; [exact E |].
  apply IH, fadd_feq_l, E.
Qed.

(** The sum of floats does not depend on their order. *)
Lemma fold_fadd_permutation (xs ys : list float) :
  Permutation xs ys ->
  forall a a', feq a a' -> feq (fold_left fadd xs a) (fold_left fadd ys a').
Proof.
  induction 1 as [| x l l' P IH | x y l | l l' l'' P1 IH1 P2 IH2]; intros a a' E; simpl.
  - exact E.
  - apply IH, fadd_feq_l, E.
  - apply fold_fadd_feq.
    apply feq_trans with (fadd (fadd a x) y); [apply fadd_swap |].
    apply fadd_feq_l, fadd_feq_l, E.
  - apply feq_trans with (fold_left fadd l' a'); [apply IH1, E | apply IH2, feq_refl].
Qed.

Lemma fdiv_feq_l (s s' d : float) : feq s s' -> feq (fdiv s d) (fdiv s' d).
Proof.
  destruct s as [| | | a], s' as [| | | a'], d as [| | | b]; simpl; try tauto;
    try (intros _; apply feq_refl); try (intros _; reflexivity).
  intros E. destruct (Qeq_bool b 0).
  - assert (C : (a ?= 0)%Q = (a' ?= 0)%Q) by (apply Qcompare_comp; [exact E | reflexivity]).
    rewrite C. apply feq_refl.
  - simpl. rewrite E. reflexivity.
Qed.

Lemma round_feq (x y : float) (ndigits : nat) : feq x y -> round x ndigits = round y ndigits.
Proof.
  destruct x, y; simpl; try tauto. intros E. f_equal. apply round_Q_compat, E.
Qed.

Lemma dropna_permutation (xs ys : list float) :
  Permutation xs ys -> Permutation (dropna xs) (dropna ys).
Proof.
  unfold dropna.
  induction 1 as [| x l l' P IH | x y l | l l' l'' P1 IH1 P2 IH2]; simpl.
  - constructor.
  - destruct (negb (isnan x)); [constructor |]; exact IH.
  - destruct (negb (isnan x)), (negb (isnan y)); try apply Permutation_refl.
    apply perm_swap.
  - apply Permutation_trans with (filter (fun x => negb (isnan x)) l'); assumption.
Qed.

Lemma count_ge_permutation (xs ys : list float) (t : float) :
  Permutation xs ys -> count_ge xs t = count_ge ys t.
Proof.
  unfold count_ge.
  induction 1 as [| x l l' P IH | x y l | l l' l'' P1 IH1 P2 IH2]; simpl.
  - reflexivity.
  - destruct (fge x t); simpl; rewrite IH; reflexivity.
  - destruct (fge x t), (fge y t); reflexivity.
  - rewrite IH1. exact IH2.
Qed.

(** X3.  Every game counts the same wherever it stands: two tables whose
    stat columns hold the same numbers in another order give the same result;
    with a threshold for any numbers, without one for a column of counts,
    whose sum the program forms without rounding. *)
Theorem compute_order_of_rows
    (df df' : DataFrame) (code : string) (threshold : option float) (xs ys : list float) :
  getitem df code = Ok (map Num xs) ->
  getitem df' code = Ok (map Num ys) ->
  Permutation xs ys ->
  (threshold = None ->
     exists entries, xs = map count_cell entries /\ within_limit entries = true) ->
  compute (mk df code threshold) = compute (mk df' code threshold).
Proof.
  intros G G' P _. unfold compute. destruct threshold as [t |].
  - rewrite (compute_body_threshold df code t xs G), (compute_body_threshold df' code t ys G').
    rewrite (count_ge_permutation xs ys t P), (Permutation_length P). reflexivity.
  - rewrite (compute_body_average df code xs G), (compute_body_average df' code ys G').
    rewrite (round_feq (arithmetic_mean (dropna xs)) (arithmetic_mean (dropna ys)) 2);
      [reflexivity |].
    unfold arithmetic_mean.
    pose proof (dropna_permutation xs ys P) as D.
    rewrite (Permutation_length D).
    apply fdiv_feq_l, fold_fadd_permutation; [exact D | reflexivity].
Qed.

(** X4.  Average mode on a column of counts: when the counts that are there
    lie between [lo] and [hi], so does the result. *)
Theorem compute_average_between
    (df : DataFrame) (code : string) (entries : list (option Z)) (lo hi : Z) :
  getitem df code = Ok (count_column entries) ->
  within_limit entries = true ->
  present entries <> [] ->
  (forall z, In z (present entries) -> (lo <= z <= hi)%Z) ->
  exists r : Q,
    compute (mk df code None) = Ok (Fin r)
    /\ (inject_Z lo <= r <= inject_Z hi)%Q.
Proof.
  intros G _ Hp B.
  destruct (compute_average_of_counts df code entries G Hp) as (q & E & C).
  exists (round_Q q 2). split; [exact C |].
  assert (Hn : (0 < Z.of_nat (List.length (present entries)))%Z)
    by (destruct (present entries); [congruence | simpl; lia]).
  assert (M : (inject_Z lo <= q <= inject_Z hi)%Q).
  { rewrite E. unfold exact_mean, Qle, inject_Z. cbn [Qnum Qden].
    replace (Zpos (Pos.of_nat (List.length (present entries))))
      with (Z.of_nat (List.length (present entries)))
      by (destruct (present entries); [congruence |]; cbn [List.length];
          rewrite <- Pos.of_nat_succ, Zpos_P_of_succ_nat; lia).
    clear - B. induction (present entries) as [| z zs IH]; [simpl; lia |].
    assert (Bz := B z (or_introl eq_refl)).
    assert (IH' := IH (fun z' Hz' => B z' (or_intror Hz'))).
    cbn [sum_of fold_right List.length] in *. fold (sum_of zs) in *. nia. }
  split.
  - rewrite <- (round_Q_inject_Z lo 2). apply round_Q_mono, M.
  - rewrite <- (round_Q_inject_Z hi 2). apply round_Q_mono, M.
Qed.

End ComputeFurther.

Lemma compute_threshold_antitone_example :
  getitem threshold_example "PTS"
  = Ok (map Num [whole 18; whole 22; whole 25; whole 15; whole 30])
  /\ exists pa pb : Q,
       StatFormula.compute (StatFormula.mk threshold_example "PTS" (Some (Fin 20))) = Ok (Fin pa)
       /\ StatFormula.compute (StatFormula.mk threshold_example "PTS" (Some (Fin 25))) = Ok (Fin pb)
       /\ (pb <= pa)%Q.
Proof.
  split; [reflexivity |].
  apply (compute_threshold_antitone threshold_example "PTS" 20 25
           [whole 18; whole 22; whole 25; whole 15; whole 30] eq_refl).
  - simpl. lia.
  - unfold Qle. simpl. lia.
Defined.

Lemma compute_threshold_string_cell_example :
  getitem three_games "PTS" = Ok [Num (whole 30); Str "24"; Str "DNP"]
  /\ StatFormula.compute (StatFormula.mk three_games "PTS" (Some (Fin 20)))
     = Raise (Exn RuntimeError
                "Error computing stat formula: unsupported operand type(s) for >=").
Proof.
  split; [reflexivity |].
  exact (compute_threshold_string_cell three_games "PTS" (Fin 20)
           [Num (whole 30); Str "24"; Str "DNP"] eq_refl eq_refl).
Defined.

Lemma compute_order_of_rows_example :
  Permutation [whole 10; whole 20; whole 30] [whole 30; whole 10; whole 20]
  /\ ([whole 10; whole 20; whole 30] = map count_cell [Some 10; Some 20; Some 30]%Z
      /\ within_limit [Some 10; Some 20; Some 30]%Z = true)
  /\ StatFormula.compute (StatFormula.mk average_example "PTS" None)
     = StatFormula.compute
         (StatFormula.mk (one_column "PTS" [whole 30; whole 10; whole 20]) "PTS" None)
  /\ StatFormula.compute (StatFormula.mk average_example "PTS" (Some (whole 20)))
     = StatFormula.compute
         (StatFormula.mk (one_column "PTS" [whole 30; whole 10; whole 20]) "PTS"
            (Some (whole 20))).
Proof.
  assert (P : Permutation [whole 10; whole 20; whole 30] [whole 30; whole 10; whole 20]).
  { apply Permutation_sym. apply (Permutation_cons_app [whole 10; whole 20] []).
    apply Permutation_refl. }
  split; [exact P |].
  split; [split; reflexivity |].
  split.
  - exact (compute_order_of_rows average_example
             (one_column "PTS" [whole 30; whole 10; whole 20]) "PTS" None
             [whole 10; whole 20; whole 30] [whole 30; whole 10; whole 20] eq_refl eq_refl P
             (fun _ => ex_intro _ [Some 10; Some 20; Some 30]%Z (conj eq_refl eq_refl))).
  - apply (compute_order_of_rows average_example
             (one_column "PTS" [whole 30; whole 10; whole 20]) "PTS" (Some (whole 20))
             [whole 10; whole 20; whole 30] [whole 30; whole 10; whole 20] eq_refl eq_refl P).
    discriminate.
Defined.

Lemma compute_average_between_example :
  getitem (one_column "PTS" [whole 30; NaN; whole 10]) "PTS"
  = Ok (count_column [Some 30; None; Some 10]%Z)
  /\ within_limit [Some 30; None; Some 10]%Z = true
  /\ exists r : Q,
       StatFormula.compute (StatFormula.mk (one_column "PTS" [whole 30; NaN; whole 10]) "PTS" None)
       = Ok (Fin r)
       /\ (inject_Z 10 <= r <= inject_Z 30)%Q.
Proof.
  split; [reflexivity | split; [reflexivity |]].
  apply (compute_average_between (one_column "PTS" [whole 30; NaN; whole 10]) "PTS"
           [Some 30; None; Some 10]%Z 10 30 eq_refl eq_refl).
  - discriminate.
  - intros z [<- | [<- | []]]; lia.
Defined.

(** ** NBAData.get_recent_games: what the table holds, what is requested *)

Section RecentGamesFurther.
Context `{Library}.
Import NbaApi NBAData.

Lemma firstn_kept {A} (n : Z) (l : list A) :
  firstn (if (0 <=? n)%Z then Z.to_nat n else (List.length l - Z.to_nat (- n))%nat) l
  = firstn (kept n (List.length l)) l.
Proof.
  unfold kept. destruct (0 <=? n)%Z; [| reflexivity].
  destruct (Nat.le_gt_cases (Z.to_nat n) (List.length l)) as [L | L].
  - rewrite Nat.min_l by exact L. reflexivity.
  - rewrite Nat.min_r by lia. rewrite !firstn_all2 by lia. reflexivity.
Qed.

Lemma coerce_columns_cons (df : DataFrame) (col : string) (rest : list string) (i : nat) :
  index_of col (columns df) = Some i ->
  coerce_columns df (col :: rest)
  = coerce_columns (mkDataFrame (columns df) (map (coerce_at i) (rows df))) rest.
Proof.
  intros I. cbn [coerce_columns].
  assert (G : getitem df col = Ok (map (cell_at i) (rows df)))
    by (unfold getitem; rewrite I; reflexivity).
  rewrite G. cbn [result_bind].
  destruct (coerce_step df col _ G) as (j & Ij & S).
  rewrite S. congruence.
Qed.

(** The five turns of the loop on a frame of the six columns. *)
Lemma coerce_columns_recent (records : list (list cell)) :
  coerce_columns (mkDataFrame recent_games_columns records) VALID_STATS
  = Ok (mkDataFrame recent_games_columns
          (map (fun r => coerce_at 5 (coerce_at 4 (coerce_at 3 (coerce_at 2 (coerce_at 1 r)))))
               records)).
Proof.
  unfold VALID_STATS.
  rewrite coerce_columns_cons with (i := 1%nat) by reflexivity. cbn [columns rows].
  rewrite coerce_columns_cons with (i := 2%nat) by reflexivity. cbn [columns rows].
  rewrite coerce_columns_cons with (i := 3%nat) by reflexivity. cbn [columns rows].
  rewrite coerce_columns_cons with (i := 4%nat) by reflexivity. cbn [columns rows].
  rewrite coerce_columns_cons with (i := 5%nat) by reflexivity. cbn [columns rows coerce_columns].
  rewrite !map_map. reflexivity.
Qed.

Lemma has_column_index (df : DataFrame) (label : string) :
  has_column df label = true -> exists i, index_of label (columns df) = Some i.
Proof.
  unfold has_column. destruct (index_of label (columns df)) as [i |]; [| discriminate].
  intros _. exists i. reflexivity.
Qed.

(** The table of a log that has the six columns, record by record. *)
Lemma recent_games_table
    (api : Provider) (self : t) (season : string) (n : Z) (calls : list call)
    (frames : list DataFrame) (log : DataFrame) (i0 i1 i2 i3 i4 i5 : nat) :
  is_active self = true ->
  PlayerGameLog api (player_id self) season = Ok frames ->
  nth_error frames 0 = Some log ->
  empty log = false ->
  index_of "GAME_DATE" (columns log) = Some i0 ->
  index_of "PTS" (columns log) = Some i1 ->
  index_of "AST" (columns log) = Some i2 ->
  index_of "REB" (columns log) = Some i3 ->
  index_of "BLK" (columns log) = Some i4 ->
  index_of "STL" (columns log) = Some i5 ->
  fst (get_recent_games api self season n calls)
  = Ok (mkDataFrame recent_games_columns
          (map (fun r => [cell_at i0 r;
                          to_numeric_cell (cell_at i1 r); to_numeric_cell (cell_at i2 r);
                          to_numeric_cell (cell_at i3 r); to_numeric_cell (cell_at i4 r);
                          to_numeric_cell (cell_at i5 r)])
               (firstn (kept n (len log)) (rows log)))).
Proof.
  intros A G F E I0 I1 I2 I3 I4 I5.
  unfold get_recent_games, try_except, bind, request, lift, list_item, raise, ret.
  rewrite A, G, F. cbn [negb]. cbv beta iota. rewrite E.
  unfold select, has_column. cbn [forallb map].
  rewrite I0, I1, I2, I3, I4, I5. cbn [andb].
  unfold head, len. cbn [columns rows]. rewrite length_map.
  fold recent_games_columns. fold VALID_STATS.
  rewrite coerce_columns_recent. cbn [fst].
  rewrite firstn_map, firstn_kept, !map_map. reflexivity.
Qed.

(** X5.  What [get_recent_games] returns for a log that has the six columns
    and a row: the six columns in the order of the source; of the log's rows
    the first [min(n, k)] in their order (all but the last [-n] for [n < 0]);
    the dates as they were; each stat column put through [to_numeric]. *)
Theorem recent_games_content
    (api : Provider) (self : t) (season : string) (n : Z)
    (frames : list DataFrame) (log : DataFrame) :
  is_active self = true ->
  PlayerGameLog api (player_id self) season = Ok frames ->
  nth_error frames 0 = Some log ->
  empty log = false ->
  (forall l, In l recent_games_columns -> has_column log l = true) ->
  exists table,
    fst (run (get_recent_games api self season n)) = Ok table
    /\ columns table = recent_games_columns
    /\ (forall dates, getitem log "GAME_DATE" = Ok dates ->
          getitem table "GAME_DATE" = Ok (firstn (kept n (len log)) dates))
    /\ (forall label column, In label VALID_STATS -> getitem log label = Ok column ->
          getitem table label = Ok (to_numeric (firstn (kept n (len log)) column))).
Proof.
  intros A G F E P.
  destruct (has_column_index log "GAME_DATE") as [i0 I0]; [apply P; simpl; tauto |].
  destruct (has_column_index log "PTS") as [i1 I1]; [apply P; simpl; tauto |].
  destruct (has_column_index log "AST") as [i2 I2]; [apply P; simpl; tauto |].
  destruct (has_column_index log "REB") as [i3 I3]; [apply P; simpl; tauto |].
  destruct (has_column_index log "BLK") as [i4 I4]; [apply P; simpl; tauto |].
  destruct (has_column_index log "STL") as [i5 I5]; [apply P; simpl; tauto |].
  eexists. split; [apply (recent_games_table api self season n [] frames log
                            i0 i1 i2 i3 i4 i5); assumption |].
  split; [reflexivity | split].
  - intros dates D. unfold getitem in D. rewrite I0 in D. injection D as <-.
    unfold getitem. cbn [columns rows index_of recent_games_columns String.eqb Ascii.eqb Bool.eqb].
    cbn. rewrite map_map, firstn_map. reflexivity.
  - intros label column Hl C. unfold getitem in C.
    unfold to_numeric.
    destruct Hl as [<- | [<- | [<- | [<- | [<- | []]]]]];
      [rewrite I1 in C | rewrite I2 in C | rewrite I3 in C | rewrite I4 in C | rewrite I5 in C];
      injection C as <-; unfold getitem; cbn; rewrite map_map, firstn_map, map_map; reflexivity.
Qed.

End RecentGamesFurther.

Lemma recent_games_content_example :
  NBAData.is_active lebron = true
  /\ empty three_games = false
  /\ exists table,
       fst (NbaApi.run (NBAData.get_recent_games example_provider lebron "2024-25" 2)) = Ok table
       /\ getitem table "GAME_DATE" = Ok [Str "Apr 11, 2025"; Str "Apr 09, 2025"]
       /\ getitem table "PTS" = Ok [Num (whole 30); Num (whole 24)].
Proof.
  split; [reflexivity | split; [reflexivity |]].
  destruct (recent_games_content example_provider lebron "2024-25" 2
              [three_games] three_games eq_refl eq_refl eq_refl eq_refl)
    as (table & T & _ & D & S).
  - intros l [<- | [<- | [<- | [<- | [<- | [<- | []]]]]]]; reflexivity.
  - exists table. split; [exact T | split].
    + rewrite (D _ eq_refl). reflexivity.
    + rewrite (S "PTS" _ (or_introl eq_refl) eq_refl). reflexivity.
Defined.

Section RecentGamesRequests.
Context `{Library}.
Import NbaApi NBAData.

Local Ltac recent_games_failure :=
  simpl; split; [reflexivity |];
  let e := fresh "e" in let E := fresh "E" in
  intros e E; injection E as <-; split; [reflexivity | eexists; reflexivity].

(** X6.  For an active player [get_recent_games] makes one request, the
    game log of the player and the season, whatever comes of it; and whatever
    fails (the request, an answer without a frame, an empty log, a missing
    column) is raised as RuntimeError with the prefix of the method. *)
Theorem recent_games_one_request
    (api : Provider) (self : t) (season : string) (n : Z) (calls : list call) :
  is_active self = true ->
  snd (get_recent_games api self season n calls)
  = calls ++ [PlayerGameLogCall (player_id self) season]
  /\ forall e, fst (get_recent_games api self season n calls) = Raise e ->
       class_of e = RuntimeError
       /\ exists cause : string, str e = ("Error retrieving recent games: " ++ cause)%string.
Proof.
  intros A.
  unfold get_recent_games, try_except, bind, request, lift, list_item, raise, ret.
  rewrite A. cbn [negb]. cbv beta iota.
  destruct (PlayerGameLog api (player_id self) season) as [frames | e0];
    [| recent_games_failure].
  destruct (nth_error frames 0) as [log |]; [| recent_games_failure].
  destruct (empty log); [recent_games_failure |].
  fold recent_games_columns.
  destruct (select log recent_games_columns) as [selected | e0]; [| recent_games_failure].
  fold VALID_STATS.
  destruct (coerce_columns (head n selected) VALID_STATS) as [table | e0];
    [| recent_games_failure].
  simpl. split; [reflexivity | discriminate].
Qed.

Lemma valid_stat_upper (code : string) :
  is_valid_stat code = true -> In (upper code) VALID_STATS.
Proof.
  unfold is_valid_stat. intros V. apply existsb_exists in V.
  destruct V as (l & Hl & E). apply String.eqb_eq in E. subst l. exact Hl.
Qed.

(** X7.  A stat that [is_valid_stat] accepts, in any case, is a column of
    numbers of every table that [get_recent_games] returns: on such a table
    [compute] raises nothing, with a threshold and without. *)
Theorem compute_on_fetched_table
    (api : Provider) (self : t) (season : string) (n : Z) (calls : list call)
    (table : DataFrame) (code : string) (threshold : option float) :
  fst (get_recent_games api self season n calls) = Ok table ->
  is_valid_stat code = true ->
  exists r, StatFormula.compute (StatFormula.init table code threshold) = Ok r.
Proof.
  intros R V. apply valid_stat_upper in V.
  destruct (recent_games_inversion _ _ _ _ _ _ R)
    as (frames & log & selected & _ & _ & _ & _ & S & C).
  destruct (select_inversion _ _ _ S) as [Cs _].
  destruct (coerce_columns_inversion _ _ _ C) as (Ct & _ & Nt).
  assert (Hi : exists i, index_of (upper code) (columns (head n selected)) = Some i).
  { rewrite head_columns, Cs.
    destruct V as [<- | [<- | [<- | [<- | [<- | []]]]]]; eexists; reflexivity. }
  destruct Hi as [i Hi].
  destruct (numeric_at_column table (upper code) i) as [xs G].
  { rewrite Ct. exact Hi. }
  { apply (Nt (upper code) i Hi). left. exact V. }
  unfold StatFormula.init, StatFormula.compute. destruct threshold as [t |].
  - rewrite (compute_body_threshold table (upper code) t xs G). eauto.
  - rewrite (compute_body_average table (upper code) xs G). eauto.
Qed.

End RecentGamesRequests.

Lemma recent_games_one_request_example :
  NBAData.is_active lebron = true
  /\ snd (NBAData.get_recent_games (failing_provider (Exn OtherError "HTTP 500")) lebron
            "2024-25" 5 [NbaApi.GetPlayers])
     = [NbaApi.GetPlayers; NbaApi.PlayerGameLogCall 2544 "2024-25"]
  /\ fst (NBAData.get_recent_games (failing_provider (Exn OtherError "HTTP 500")) lebron
            "2024-25" 5 [NbaApi.GetPlayers])
     = Raise (Exn RuntimeError "Error retrieving recent games: HTTP 500").
Proof.
  split; [reflexivity |].
  split; [| reflexivity].
  exact (proj1 (recent_games_one_request (failing_provider (Exn OtherError "HTTP 500")) lebron
                  "2024-25" 5 [NbaApi.GetPlayers] eq_refl)).
Defined.

Lemma compute_on_fetched_table_example :
  is_valid_stat "ast" = true
  /\ exists table r,
       fst (NbaApi.run (NBAData.get_recent_games example_provider lebron "2024-25" 10)) = Ok table
       /\ StatFormula.compute (StatFormula.init table "ast" None) = Ok r.
Proof.
  split; [reflexivity |].
  destruct (NbaApi.run (NBAData.get_recent_games example_provider lebron "2024-25" 10))
    as [[table | e] calls] eqn:R; [| vm_compute in R; discriminate].
  destruct (compute_on_fetched_table example_provider lebron "2024-25" 10 [] table "ast" None)
    as [r C].
  - unfold NbaApi.run in R. rewrite R. reflexivity.
  - reflexivity.
  - exists table, r. split; [reflexivity | exact C].
Defined.

(** ** NBAData.get_career_averages: all or nothing *)

Section CareerFurther.
Context `{Library}.
Import NbaApi NBAData.

Local Ltac career_failure :=
  simpl; split; [reflexivity | split];
  [ let e := fresh "e" in let E := fresh "E" in
    intros e E; injection E as <-; split; [reflexivity | eexists; reflexivity]
  | discriminate ].

(** X8.  [get_career_averages] makes one request, the career statistics of
    the player, whatever comes of it.  What fails inside it is raised as
    RuntimeError with the prefix of the method.  When it returns, the mapping
    is empty or has the five stats of [VALID_STATS] as its keys, in this
    order: never some of them only. *)
Theorem career_averages_all_or_nothing
    (api : Provider) (self : t) (calls : list call) :
  snd (get_career_averages api self calls)
  = calls ++ [PlayerCareerStatsCall (player_id self)]
  /\ (forall e, fst (get_career_averages api self calls) = Raise e ->
        class_of e = RuntimeError
        /\ exists cause : string,
             str e = ("Error retrieving career averages: " ++ cause)%string)
  /\ (forall averages, fst (get_career_averages api self calls) = Ok averages ->
        averages = [] \/ map fst averages = VALID_STATS).
Proof.
  unfold get_career_averages, try_except, bind, request, lift, list_item, raise, ret.
  destruct (PlayerCareerStats api (player_id self)) as [frames | e0]; [| career_failure].
  destruct (nth_error frames 1) as [df |]; [| career_failure].
  destruct (empty df).
  { simpl. split; [reflexivity | split; [discriminate |]].
    intros averages E. injection E as <-. left. reflexivity. }
  destruct (column <- getitem df "GP";; first_value column)%result as [gp | e0];
    [| career_failure].
  destruct (cell_is_zero gp).
  { simpl. split; [reflexivity | split; [discriminate |]].
    intros averages E. injection E as <-. left. reflexivity. }
  destruct (per_game df gp "PTS") as [pts | e0]; [| career_failure].
  destruct (per_game df gp "AST") as [ast | e0]; [| career_failure].
  destruct (per_game df gp "REB") as [reb | e0]; [| career_failure].
  destruct (per_game df gp "BLK") as [blk | e0]; [| career_failure].
  destruct (per_game df gp "STL") as [stl | e0]; [| career_failure].
  simpl. split; [reflexivity | split; [discriminate |]].
  intros averages E. injection E as <-. right. reflexivity.
Qed.

End CareerFurther.

(** ** NBAData(name): the case of the name, the status *)

Section InitFurther.
Context `{Library}.
Import NbaApi NBAData.

Lemma title_from_to_lower (b : bool) (c : ascii) (s s' : string) :
  (forall b', title_from b' s = title_from b' s') ->
  title_from b (String (to_lower c) s) = title_from b (String c s').
Proof.
  intros E. cbn [title_from]. rewrite !E.
  destruct c as [[] [] [] [] [] [] [] []], b; reflexivity.
Qed.

Lemma title_from_lower (s : string) : forall b, title_from b (lower s) = title_from b s.
Proof.
  induction s as [| c s IH]; intros b; [reflexivity |].
  cbn [lower]. apply title_from_to_lower. exact IH.
Qed.

(** Names that differ by case only have the same title case. *)
Lemma title_case_insensitive (a b : string) : lower a = lower b -> title a = title b.
Proof.
  intros E. unfold title.
  rewrite <- (title_from_lower a), <- (title_from_lower b), E. reflexivity.
Qed.

(** X9.  [NBAData(name)] does not look at the case of the name: two names
    that differ by case only make the same requests and give the same object
    or the same error. *)
Theorem init_case_insensitive (api : Provider) (a b : string) (calls : list call) :
  lower a = lower b -> init api a calls = init api b calls.
Proof.
  intros E. unfold init. rewrite (title_case_insensitive a b E). reflexivity.
Qed.

Lemma init_found
    (api : Provider) (input_name : string) (directory : list player)
    (p : player) (others : list player) :
  get_players api = Ok directory ->
  matching input_name directory = p :: others ->
  run (init api input_name)
  = match check_if_active api (id p) [GetPlayers] with
    | (Ok status, calls) => (Ok (mk (title input_name) (id p) status), calls)
    | (Raise e, calls) => (Raise e, calls)
    end.
Proof.
  intros D M.
  unfold run, init, bind at 1. unfold bind at 1.
  unfold lookup_player_id, try_except, bind at 1, request.
  rewrite D. cbv beta iota. rewrite matching_title, M. cbn [app].
  unfold ret at 1. cbv beta iota.
  destruct (check_if_active api (id p) [GetPlayers]) as [[status | e] calls']; reflexivity.
Qed.

(** X10.  A profile without the column ROSTERSTATUS: the player is made,
    and is not active, so that [get_recent_games] refuses it with ValueError
    and requests nothing. *)
Theorem init_without_status
    (api : Provider) (input_name : string) (directory : list player)
    (p : player) (others : list player) (frames : list DataFrame)
    (data : DataFrame) (record : list cell) (records : list (list cell)) :
  get_players api = Ok directory ->
  matching input_name directory = p :: others ->
  CommonPlayerInfo api (id p) = Ok frames ->
  nth_error frames 0 = Some data ->
  rows data = record :: records ->
  has_column data "ROSTERSTATUS" = false ->
  run (init api input_name)
  = (Ok (mk (title input_name) (id p) false), [GetPlayers; CommonPlayerInfoCall (id p)])
  /\ forall season n calls,
       get_recent_games api (mk (title input_name) (id p) false) season n calls
       = (Raise (Exn ValueError
                   (title input_name
                    ++ " is not an active player. Recent game logs unavailable.")),
          calls).
Proof.
  intros D M C F R S. split; [| reflexivity].
  rewrite (init_found api input_name directory p others D M).
  unfold check_if_active, try_except, bind, request, lift, list_item, ret.
  rewrite C. cbv beta iota. rewrite F, R.
  unfold has_column in S. destruct (index_of "ROSTERSTATUS" (columns data)); [discriminate |].
  reflexivity.
Qed.

(** X11.  The status is read as a truth value: a profile whose ROSTERSTATUS
    is a string that is not empty makes an active player, whatever the string
    says. *)
Theorem init_status_text
    (api : Provider) (input_name : string) (directory : list player)
    (p : player) (others : list player) (frames : list DataFrame)
    (data : DataFrame) (record : list cell) (records : list (list cell))
    (i : nat) (status : string) :
  get_players api = Ok directory ->
  matching input_name directory = p :: others ->
  CommonPlayerInfo api (id p) = Ok frames ->
  nth_error frames 0 = Some data ->
  rows data = record :: records ->
  index_of "ROSTERSTATUS" (columns data) = Some i ->
  cell_at i record = Str status ->
  status <> "" ->
  run (init api input_name)
  = (Ok (mk (title input_name) (id p) true), [GetPlayers; CommonPlayerInfoCall (id p)]).
Proof.
  intros D M C F R I S N.
  rewrite (init_found api input_name directory p others D M).
  unfold check_if_active, try_except, bind, request, lift, list_item, ret.
  rewrite C. cbv beta iota. rewrite F, R, I, S. cbn [truthy].
  destruct (String.eqb_spec status ""); [contradiction | reflexivity].
Qed.

End InitFurther.

Lemma init_case_insensitive_example :
  lower "LEBRON JAMES" = lower "lebron james"
  /\ NbaApi.run (NBAData.init example_provider "LEBRON JAMES")
     = NbaApi.run (NBAData.init example_provider "lebron james").
Proof.
  split; [reflexivity |].
  exact (init_case_insensitive example_provider "LEBRON JAMES" "lebron james" [] eq_refl).
Defined.

Lemma init_without_status_example :
  has_column no_status_profile "ROSTERSTATUS" = false
  /\ NbaApi.run (NBAData.init (profile_provider no_status_profile) "lebron james")
     = (Ok (NBAData.mk "Lebron James" 2544 false),
        [NbaApi.GetPlayers; NbaApi.CommonPlayerInfoCall 2544]).
Proof.
  split; [reflexivity |].
  exact (proj1 (init_without_status (profile_provider no_status_profile) "lebron james"
                  directory (NbaApi.mkPlayer 2544 "LeBron James") []
                  [no_status_profile] no_status_profile [Str "Lakers"] []
                  eq_refl eq_refl eq_refl eq_refl eq_refl eq_refl)).
Defined.

Lemma init_status_text_example :
  "Inactive" <> ""
  /\ NbaApi.run (NBAData.init (profile_provider inactive_text_profile) "michael jordan")
     = (Ok (NBAData.mk "Michael Jordan" 893 true),
        [NbaApi.GetPlayers; NbaApi.CommonPlayerInfoCall 893]).
Proof.
  split; [discriminate |].
  apply (init_status_text (profile_provider inactive_text_profile) "michael jordan"
           directory (NbaApi.mkPlayer 893 "Michael Jordan") []
           [inactive_text_profile] inactive_text_profile [Str "Bulls"; Str "Inactive"] []
           1%nat "Inactive" eq_refl eq_refl eq_refl eq_refl eq_refl eq_refl eq_refl).
  discriminate.
Defined.

(** ** The profile *)

Section ProfileProperties.
Context `{Library} `{Console}.
Import NbaApi.

Lemma loc0_get_field (data : DataFrame) (record : list cell) (records : list (list cell))
    (label : string) :
  rows data = record :: records -> loc0_get data label = Ok (profile_field data record label).
Proof.
  intros R. unfold loc0_get, profile_field. rewrite R.
  destruct (index_of label (columns data)); reflexivity.
Qed.

(** X12.  The profile of a player.  From a frame that has a row, the
    profile is made whatever columns the frame lacks: the name is the one of
    the object, each other field is the cell of the first row or N/A when its
    column is missing.  From a frame without a row there is no profile but
    RuntimeError.  One request is made either way. *)
Theorem profile_defaults
    (api : Provider) (self : NBAData.t) (frames : list DataFrame) (data : DataFrame) :
  CommonPlayerInfo api (NBAData.player_id self) = Ok frames ->
  nth_error frames 0 = Some data ->
  (forall record records, rows data = record :: records ->
     run (get_player_profile api self)
     = (Ok (Profile.mk (NBAData.name self)
              (profile_field data record "WEIGHT") (profile_field data record "TEAM_NAME")
              (profile_field data record "POSITION") (profile_field data record "HEIGHT")
              (profile_field data record "FROM_YEAR") (profile_field data record "TO_YEAR")),
        [CommonPlayerInfoCall (NBAData.player_id self)]))
  /\ (rows data = [] ->
      run (get_player_profile api self)
      = (Raise (Exn RuntimeError "Error retrieving player profile: 0"),
         [CommonPlayerInfoCall (NBAData.player_id self)])).
Proof.
  intros C F.
  unfold run, get_player_profile, try_except, bind, request, lift, list_item, ret, raise.
  rewrite C. cbv beta iota. rewrite F.
  split.
  - intros record records R. rewrite !(loc0_get_field data record records _ R). reflexivity.
  - intros R. unfold loc0_get. rewrite R. reflexivity.
Qed.

End ProfileProperties.

Lemma profile_defaults_example :
  NbaApi.CommonPlayerInfo (profile_provider no_status_profile) (NBAData.player_id lebron)
  = Ok [no_status_profile]
  /\ NbaApi.run (get_player_profile (profile_provider no_status_profile) lebron)
     = (Ok (Profile.mk "Lebron James" (Str "N/A") (Str "Lakers") (Str "N/A") (Str "N/A")
              (Str "N/A") (Str "N/A")),
        [NbaApi.CommonPlayerInfoCall 2544]).
Proof.
  split; [reflexivity |].
  exact (proj1 (profile_defaults (profile_provider no_status_profile) lebron
                  [no_status_profile] no_status_profile eq_refl eq_refl)
           [Str "Lakers"] [] eq_refl).
Defined.

(** ** The driver *)

Section DriverRequests.
Context `{Library} `{Console}.
Import NbaApi.

Lemma existsb_game_log_app (calls extra : list call) :
  existsb is_game_log extra = false ->
  existsb is_game_log (calls ++ extra) = existsb is_game_log calls.
Proof. intros E. rewrite existsb_app, E. apply orb_false_r. Qed.

Lemma init_requests (api : Provider) (input_name : string) (calls : list call) :
  existsb is_game_log (snd (NBAData.init api input_name calls))
  = existsb is_game_log calls.
Proof.
  unfold NBAData.init, NBAData.lookup_player_id, NBAData.check_if_active.
  unfold NbaApi.try_except, NbaApi.bind, NbaApi.request, NbaApi.lift, NbaApi.list_item,
    NbaApi.ret, NbaApi.raise.
  destruct (get_players api) as [directory | e]; cbv beta iota;
    [| simpl; apply existsb_game_log_app; reflexivity].
  destruct (filter _ directory) as [| p others]; cbv beta iota;
    [simpl; apply existsb_game_log_app; reflexivity |].
  destruct (CommonPlayerInfo api (id p)) as [frames | e]; cbv beta iota;
    [| simpl; rewrite <- app_assoc; apply existsb_game_log_app; reflexivity].
  destruct (nth_error frames 0) as [data |]; cbv beta iota;
    [| simpl; rewrite <- app_assoc; apply existsb_game_log_app; reflexivity].
  destruct (rows data); cbv beta iota;
    [simpl; rewrite <- app_assoc; apply existsb_game_log_app; reflexivity |].
  destruct (index_of "ROSTERSTATUS" (columns data)); simpl;
    rewrite <- app_assoc; apply existsb_game_log_app; reflexivity.
Qed.

Lemma to_str_requests (api : Provider) (self : NBAData.t) (calls : list call) :
  snd (to_str api self calls) = calls ++ [CommonPlayerInfoCall (NBAData.player_id self)].
Proof.
  unfold to_str, get_player_profile.
  unfold NbaApi.try_except, NbaApi.bind, NbaApi.request, NbaApi.lift, NbaApi.list_item,
    NbaApi.ret, NbaApi.raise.
  destruct (CommonPlayerInfo api (NBAData.player_id self)) as [frames | e]; [| reflexivity].
  destruct (nth_error frames 0) as [data |]; [| reflexivity].
  destruct (loc0_get data "WEIGHT"); [| reflexivity].
  destruct (loc0_get data "TEAM_NAME"); [| reflexivity].
  destruct (loc0_get data "POSITION"); [| reflexivity].
  destruct (loc0_get data "HEIGHT"); [| reflexivity].
  destruct (loc0_get data "FROM_YEAR"); [| reflexivity].
  destruct (loc0_get data "TO_YEAR"); reflexivity.
Qed.

Lemma career_requests (api : Provider) (self : NBAData.t) (calls : list call) :
  snd (NBAData.get_career_averages api self calls)
  = calls ++ [PlayerCareerStatsCall (NBAData.player_id self)].
Proof.
  unfold NBAData.get_career_averages.
  unfold NbaApi.try_except, NbaApi.bind, NbaApi.request, NbaApi.lift, NbaApi.list_item,
    NbaApi.ret, NbaApi.raise.
  destruct (PlayerCareerStats api (NBAData.player_id self)) as [frames | e]; [| reflexivity].
  destruct (nth_error frames 1) as [df |]; [| reflexivity].
  destruct (empty df); [reflexivity |].
  destruct (column <- getitem df "GP";; first_value column)%result as [gp | e];
    [| reflexivity].
  destruct (cell_is_zero gp); [reflexivity |].
  destruct (NBAData.per_game df gp "PTS"); [| reflexivity].
  destruct (NBAData.per_game df gp "AST"); [| reflexivity].
  destruct (NBAData.per_game df gp "REB"); [| reflexivity].
  destruct (NBAData.per_game df gp "BLK"); [| reflexivity].
  destruct (NBAData.per_game df gp "STL"); reflexivity.
Qed.

End DriverRequests.

Section DriverProperties.
Context `{Library} `{Console}.
Import Driver.

Lemma print_averages_world (averages : list (string * float)) (w : World) :
  exists written,
    print_averages averages w
    = (Ok tt, mkWorld (stdin w) (stdout w ++ written) (requests w)).
Proof.
  revert w. induction averages as [| [label value] rest IH]; intros w.
  - exists []. simpl. unfold ret. rewrite app_nil_r. destruct w; reflexivity.
  - cbn [print_averages]. unfold bind, print, write.
    destruct (IH (mkWorld (stdin w)
                    (stdout w ++ [(("  " ++ label ++ ": " ++ PyFormat.float_str value)
                                   ++ newline)%string])
                    (requests w))) as [written E].
    rewrite E. cbn [stdin stdout requests]. eexists. rewrite <- app_assoc. reflexivity.
Qed.

(** What the first part of [main] leaves behind: no request for a game log,
    and the flags other than the name as they were. *)
Lemma main_intro_outcome
    (api : NbaApi.Provider) (args : Args) (w w1 : World) (r : result (Args * NBAData.t)) :
  main_intro api args w = (r, w1) ->
  existsb is_game_log (requests w1) = existsb is_game_log (requests w)
  /\ forall args' self, r = Ok (args', self) ->
       stat args' = stat args /\ games args' = games args /\ season args' = season args.
Proof.
  unfold main_intro, bind.
  assert (S : exists args0 w0,
             (args0 = args \/ exists name, args0 = set_player args (Some name))
             /\ requests w0 = requests w
             /\ ((if given (player args) then ret args
                  else (name <- input "Enter NBA player full name (e.g. LeBron James): " ;;
                        ret (set_player args (Some name)))%io) w = (Ok args0, w0)
                 \/ exists e, (if given (player args) then ret args
                               else (name <- input "Enter NBA player full name (e.g. LeBron James): " ;;
                                     ret (set_player args (Some name)))%io) w = (Raise e, w0))).
  { destruct (given (player args)).
    - exists args, w. split; [left; reflexivity | split; [reflexivity | left; reflexivity]].
    - unfold bind, input, ret. destruct (stdin w) as [| line rest].
      + eexists args, _. split; [left; reflexivity | split; [| right; eexists; reflexivity]].
        reflexivity.
      + eexists _, _. split; [right; eexists; reflexivity |].
        split; [| left; reflexivity]. reflexivity. }
  destruct S as (args0 & w0 & Ha & Hw & [S | [e S]]); unfold bind in S; rewrite S.
  2:{ intros E. injection E as <- <-. split; [rewrite Hw; reflexivity | discriminate]. }
  assert (Hflags : stat args0 = stat args /\ games args0 = games args
                   /\ season args0 = season args).
  { destruct Ha as [-> | [name ->]]; repeat split. }
  unfold call_api at 1.
  pose proof (init_requests api (player_of args0) (requests w0)) as I.
  destruct (NBAData.init api (player_of args0) (requests w0)) as [[self | e] calls1];
    cbn [snd] in I.
  2:{ intros E. injection E as <- <-. cbn [requests]. rewrite I, Hw.
      split; [reflexivity | discriminate]. }
  unfold print at 1, write at 1. cbn [stdin stdout requests].
  unfold call_api at 1. cbn [stdin stdout requests].
  pose proof (to_str_requests api self calls1) as T.
  destruct (to_str api self calls1) as [[text | e] calls2]; cbn [snd] in T.
  2:{ intros E. injection E as <- <-. cbn [requests]. rewrite T.
      rewrite existsb_game_log_app by reflexivity. rewrite I, Hw.
      split; [reflexivity | discriminate]. }
  unfold print at 1, write at 1. cbn [stdin stdout requests].
  unfold call_api at 1. cbn [stdin stdout requests].
  pose proof (career_requests api self calls2) as C.
  destruct (NBAData.get_career_averages api self calls2) as [[career | e] calls3];
    cbn [snd] in C.
  2:{ intros E. injection E as <- <-. cbn [requests]. rewrite C, T.
      rewrite !existsb_game_log_app by reflexivity. rewrite I, Hw.
      split; [reflexivity | discriminate]. }
  assert (P : exists written,
             match career with
             | [] => print "  No career data available."
             | _ :: _ => print_averages career
             end (mkWorld (stdin w0)
                    ((stdout w0 ++ [((newline ++ "Career averages for " ++ NBAData.name self
                                      ++ ":") ++ newline)%string])
                     ++ [(text ++ newline)%string]) calls3)
             = (Ok tt, mkWorld (stdin w0) written calls3)).
  { destruct career as [| entry rest].
    - eexists. reflexivity.
    - destruct (print_averages_world (entry :: rest)
                  (mkWorld (stdin w0)
                     ((stdout w0 ++ [((newline ++ "Career averages for " ++ NBAData.name self
                                       ++ ":") ++ newline)%string])
                      ++ [(text ++ newline)%string]) calls3)) as [written E].
      eexists. rewrite E. reflexivity. }
  destruct P as [written P]. rewrite P. unfold ret.
  intros E. injection E as <- <-. cbn [requests]. rewrite C, T.
  rewrite !existsb_game_log_app by reflexivity. rewrite I, Hw.
  split; [reflexivity |]. intros args' self' E. injection E as <- <-. exact Hflags.
Qed.

(** X13.  The loop that asks for the number of games.  Lines that [int]
    does not read as 5 or 10 are refused one by one, each with its prompt and
    its message; the first line read as 5 or 10 ends the loop with this
    number, the lines after it being left on the standard input; and when
    every line is refused the loop ends with EOFError, not with a number. *)
Theorem ask_games_until_valid (bad written : list string) :
  (forall line, In line bad -> refused line = true) ->
  ask_games_loop bad written
  = (Raise (Exn OtherError "EOF when reading a line"), [],
     written ++ flat_map games_retry bad ++ [games_prompt])
  /\ forall good rest g,
       int_of_string good = Some g -> (g = 5 \/ g = 10)%Z ->
       ask_games_loop (bad ++ good :: rest) written
       = (Ok g, rest, written ++ flat_map games_retry bad ++ [games_prompt]).
Proof.
  revert written. induction bad as [| line bad IH]; intros written B.
  - split; [reflexivity |].
    intros good rest g G V. cbn [app ask_games_loop flat_map]. rewrite G.
    destruct V as [-> | ->]; reflexivity.
  - assert (R : refused line = true) by (apply B; left; reflexivity).
    assert (B' : forall l, In l bad -> refused l = true) by (intros l Hl; apply B; right; exact Hl).
    unfold refused in R. cbn [app ask_games_loop flat_map].
    destruct (int_of_string line) as [g0 |] eqn:P.
    + assert (GR : games_retry line
                   = [games_prompt; ("Please enter either 5 or 10." ++ newline)%string])
        by (unfold games_retry; rewrite P; reflexivity).
      rewrite GR. apply negb_true_iff in R. rewrite R.
      destruct (IH (written ++ [games_prompt; ("Please enter either 5 or 10." ++ newline)%string]) B')
        as [E V].
      split.
      * rewrite E. rewrite <- !app_assoc. reflexivity.
      * intros good rest g G Hg. rewrite (V good rest g G Hg), <- !app_assoc. reflexivity.
    + assert (GR : games_retry line
                   = [games_prompt; ("Invalid input. Please enter a number." ++ newline)%string])
        by (unfold games_retry; rewrite P; reflexivity).
      rewrite GR.
      destruct (IH (written ++ [games_prompt;
                                 ("Invalid input. Please enter a number." ++ newline)%string]) B')
        as [E V].
      split.
      * rewrite E. rewrite <- !app_assoc. reflexivity.
      * intros good rest g G Hg. rewrite (V good rest g G Hg), <- !app_assoc. reflexivity.
Qed.

Lemma world_eta (w : World) : mkWorld (stdin w) (stdout w) (requests w) = w.
Proof. destruct w; reflexivity. Qed.

(** X14.  A player who is not active: once the profile and the career are
    written, [main] reads nothing more and requests nothing more, and no game
    log at any time; it writes the note on retired players when the flag
    --stat was given, and nothing otherwise. *)
Theorem main_retired
    (api : NbaApi.Provider) (args args' : Args) (self : NBAData.t) (w w1 : World) :
  main_intro api args w = (Ok (args', self), w1) ->
  NBAData.is_active self = false ->
  main api args w
  = mkWorld (stdin w1)
      (stdout w1 ++ (if given (stat args) then [retired_note (NBAData.name self)] else []))
      (requests w1)
  /\ existsb is_game_log (requests (main api args w)) = existsb is_game_log (requests w).
Proof.
  intros I A.
  destruct (main_intro_outcome api args w w1 _ I) as [T F].
  destruct (F args' self eq_refl) as (Fs & _ & _).
  assert (E : main api args w
              = mkWorld (stdin w1)
                  (stdout w1 ++ (if given (stat args) then [retired_note (NBAData.name self)]
                                 else []))
                  (requests w1)).
  { unfold main, main_body, bind. rewrite I, A, Fs.
    destruct (given (stat args)).
    - reflexivity.
    - unfold ret. rewrite app_nil_r, world_eta. reflexivity. }
  split; [exact E |]. rewrite E. exact T.
Qed.

(** X15.  An active player and an answer other than yes (case and blanks
    around it apart): [main] ends there, having read this one line and
    written the question; nothing more is asked and no game log requested. *)
Theorem main_declined
    (api : NbaApi.Provider) (args args' : Args) (self : NBAData.t) (w w1 : World)
    (answer : string) (rest : list string) :
  main_intro api args w = (Ok (args', self), w1) ->
  NBAData.is_active self = true ->
  stdin w1 = answer :: rest ->
  lower (strip answer) <> "yes" ->
  main api args w = mkWorld rest (stdout w1 ++ [proceed_prompt]) (requests w1)
  /\ existsb is_game_log (requests (main api args w)) = existsb is_game_log (requests w).
Proof.
  intros I A S N.
  destruct (main_intro_outcome api args w w1 _ I) as [T _].
  assert (E : main api args w = mkWorld rest (stdout w1 ++ [proceed_prompt]) (requests w1)).
  { unfold main, main_body, bind. rewrite I, A.
    unfold main_predict, bind, input. rewrite S.
    destruct (String.eqb_spec (lower (strip answer)) "yes"); [contradiction | reflexivity]. }
  split; [exact E |]. rewrite E. exact T.
Qed.

(** X16.  An active player, the answer yes, the flag --games given, and a
    stat that [is_valid_stat] refuses: [main] writes that the stat is not
    valid and ends; the threshold is not asked and no game log requested. *)
Theorem main_invalid_stat
    (api : NbaApi.Provider) (args args' : Args) (self : NBAData.t) (w w1 : World)
    (answer text : string) (rest : list string) (g : Z) :
  main_intro api args w = (Ok (args', self), w1) ->
  NBAData.is_active self = true ->
  stdin w1 = answer :: text :: rest ->
  lower (strip answer) = "yes" ->
  games args = Some g -> g <> 0%Z ->
  is_valid_stat (upper (strip text)) = false ->
  main api args w
  = mkWorld rest
      (stdout w1 ++ [proceed_prompt; stat_prompt;
                     error_line ("'" ++ upper (strip text) ++ "' is not a valid stat.")])
      (requests w1)
  /\ existsb is_game_log (requests (main api args w)) = existsb is_game_log (requests w).
Proof.
  intros I A S Y G N V.
  destruct (main_intro_outcome api args w w1 _ I) as [T F].
  destruct (F args' self eq_refl) as (_ & Fg & _).
  assert (E : main api args w
              = mkWorld rest
                  (stdout w1 ++ [proceed_prompt; stat_prompt;
                                 error_line ("'" ++ upper (strip text)
                                             ++ "' is not a valid stat.")])
                  (requests w1)).
  { unfold main, main_body, bind. rewrite I, A.
    unfold main_predict, bind, input. rewrite S, Y. cbn [String.eqb Ascii.eqb Bool.eqb negb].
    rewrite Fg, G. destruct (Z.eqb_spec g 0); [contradiction |].
    unfold ret. cbn [stdin stdout requests stat_of stat set_stat].
    rewrite V. cbn [negb]. unfold raise, print, write. cbn [stdin stdout requests snd str].
    rewrite <- !app_assoc. reflexivity. }
  split; [exact E |]. rewrite E. exact T.
Qed.

(** The first part of [main] reads the name among the flags, and hands the
    others on as they are. *)
Lemma main_intro_frame
    (api : NbaApi.Provider) (args : Args) (w : World) (f : Args -> Args) :
  (forall a, player (f a) = player a) ->
  (forall a v, f (set_player a v) = set_player (f a) v) ->
  main_intro api (f args) w
  = match main_intro api args w with
    | (Ok (a, self), w1) => (Ok (f a, self), w1)
    | (Raise e, w1) => (Raise e, w1)
    end.
Proof.
  intros Hp Hs. unfold main_intro, bind. rewrite Hp.
  assert (Hn : forall a, player_of (f a) = player_of a)
    by (intros a; unfold player_of; rewrite Hp; reflexivity).
  destruct (given (player args)).
  - unfold ret. cbv beta iota. rewrite Hn.
    destruct (call_api (NBAData.init api (player_of args)) w) as [[self | e] w0];
      [| reflexivity].
    destruct (print _ w0) as [[u | e] w2]; [| reflexivity].
    destruct (call_api (to_str api self) w2) as [[text | e] w3]; [| reflexivity].
    destruct (print text w3) as [[u' | e] w4]; [| reflexivity].
    destruct (call_api (NBAData.get_career_averages api self) w4) as [[career | e] w5];
      [| reflexivity].
    destruct (match career with
              | [] => print "  No career data available."
              | _ :: _ => print_averages career
              end w5) as [[u'' | e] w6]; reflexivity.
  - unfold input. destruct (stdin w) as [| line rest]; [reflexivity |].
    unfold ret. cbv beta iota. rewrite <- Hs, Hn.
    destruct (call_api (NBAData.init api (player_of (set_player args (Some line))))
                (mkWorld rest
                   (stdout w ++ ["Enter NBA player full name (e.g. LeBron James): "%string])
                   (requests w))) as [[self | e] w0]; [| reflexivity].
    destruct (print _ w0) as [[u | e] w2]; [| reflexivity].
    destruct (call_api (to_str api self) w2) as [[text | e] w3]; [| reflexivity].
    destruct (print text w3) as [[u' | e] w4]; [| reflexivity].
    destruct (call_api (NBAData.get_career_averages api self) w4) as [[career | e] w5];
      [| reflexivity].
    destruct (match career with
              | [] => print "  No career data available."
              | _ :: _ => print_averages career
              end w5) as [[u'' | e] w6]; reflexivity.
Qed.

(** The prediction reads the flags --games and --season only. *)
Lemma main_predict_frame
    (api : NbaApi.Provider) (a b : Args) (self : NBAData.t) (w : World) :
  games a = games b -> season a = season b ->
  main_predict api a self w = main_predict api b self w.
Proof.
  intros G S. unfold main_predict, bind. rewrite G.
  destruct (input _ w) as [[answer | e] w0]; [| reflexivity].
  destruct (negb (String.eqb (lower (strip answer)) "yes")); [reflexivity |].
  destruct a as [pa sa ta ga sea da], b as [pb sb tb gb seb db].
  cbn [games season] in G, S. subst gb seb. cbn [games].
  destruct ga as [g |].
  - destruct (g =? 0)%Z.
    + destruct (ask_games w0) as [[g' | e] w1]; reflexivity.
    + reflexivity.
  - destruct (ask_games w0) as [[g' | e] w1]; reflexivity.
Qed.

(** X17.  The flags that [main] does not use.  The value of --threshold
    and the flag --show-data change nothing to a run; neither does the value
    of --stat, beyond its being given or not: for an active player the stat
    and the threshold are asked again and the flags overwritten. *)
Theorem main_ignores_flags (api : NbaApi.Provider) (args : Args) (w : World) :
  (forall t, main api (set_threshold args t) w = main api args w)
  /\ (forall b, main api (set_show_data args b) w = main api args w)
  /\ (forall s s', given s = given s' ->
        main api (set_stat args s) w = main api (set_stat args s') w).
Proof.
  split; [| split].
  - intros t. unfold main, main_body, bind.
    rewrite (main_intro_frame api args w (fun a => set_threshold a t))
      by (intros; reflexivity).
    destruct (main_intro api args w) as [[[a self] | e] w1]; [| reflexivity].
    cbv beta iota. destruct (NBAData.is_active self); [| reflexivity].
    rewrite (main_predict_frame api (set_threshold a t) a self w1) by reflexivity.
    reflexivity.
  - intros b. unfold main, main_body, bind.
    rewrite (main_intro_frame api args w (fun a => set_show_data a b))
      by (intros; reflexivity).
    destruct (main_intro api args w) as [[[a self] | e] w1]; [| reflexivity].
    cbv beta iota. destruct (NBAData.is_active self); [| reflexivity].
    rewrite (main_predict_frame api (set_show_data a b) a self w1) by reflexivity.
    reflexivity.
  - intros s s' E. unfold main, main_body, bind.
    rewrite (main_intro_frame api args w (fun a => set_stat a s)) by (intros; reflexivity).
    rewrite (main_intro_frame api args w (fun a => set_stat a s')) by (intros; reflexivity).
    destruct (main_intro api args w) as [[[a self] | e] w1]; [| reflexivity].
    cbv beta iota. destruct (NBAData.is_active self).
    + rewrite (main_predict_frame api (set_stat a s) (set_stat a s') self w1) by reflexivity.
      reflexivity.
    + cbn [stat set_stat]. rewrite E. reflexivity.
Qed.

(** X18.  A prediction.  For an active player, the answer yes, the flag
    --games given, a valid stat typed and a game log fetched, [main] computes
    on the fetched table with the stat as typed, in upper case and without the
    blanks around it, and with the threshold as typed, no threshold when
    [float] does not read it; it writes the header, the table and the sentence
    of the result, and has made the request of the game log. *)
Theorem main_prediction
    (api : NbaApi.Provider) (args args' : Args) (self : NBAData.t) (w w1 : World)
    (answer text typed : string) (rest : list string) (g : Z)
    (recent : DataFrame) (calls : list NbaApi.call) (value : float) :
  main_intro api args w = (Ok (args', self), w1) ->
  NBAData.is_active self = true ->
  stdin w1 = answer :: text :: typed :: rest ->
  lower (strip answer) = "yes" ->
  games args = Some g -> g <> 0%Z ->
  is_valid_stat (upper (strip text)) = true ->
  NBAData.get_recent_games api self (season args) g (requests w1) = (Ok recent, calls) ->
  StatFormula.compute (StatFormula.init recent (upper (strip text)) (float_of_string typed))
  = Ok value ->
  main api args w
  = mkWorld rest
      (stdout w1
       ++ [proceed_prompt; stat_prompt;
           ("Enter threshold for " ++ upper (strip text) ++ " (e.g., 20): ")%string;
           ((newline ++ "Recent games played (last " ++ PyFormat.int_str g ++ " games):")
            ++ newline)%string;
           (frame_text recent ++ newline)%string;
           main_report (NBAData.name self) g (upper (strip text)) (float_of_string typed)
             value])
      calls.
Proof.
  intros I A S Y G N V R C.
  destruct (main_intro_outcome api args w w1 _ I) as [_ F].
  destruct (F args' self eq_refl) as (_ & Fg & Fs).
  unfold main, main_body, bind. rewrite I, A.
  unfold main_predict, bind, input. rewrite S, Y. cbn [String.eqb Ascii.eqb Bool.eqb negb].
  rewrite Fg, G. destruct (Z.eqb_spec g 0); [contradiction |].
  unfold ret. cbn [stdin stdout requests stat_of stat set_stat].
  rewrite V. cbn [negb stdin stdout requests].
  unfold games_of. cbn [games season set_threshold set_stat].
  rewrite Fg, G, Fs. unfold call_api. cbn [stdin stdout requests]. rewrite R.
  unfold print, write, lift. cbv beta iota. cbn [stdin stdout requests].
  unfold stat_of. cbn [stat threshold set_threshold set_stat]. rewrite C.
  cbv beta iota. cbn [stdin stdout requests]. rewrite <- !app_assoc. reflexivity.
Qed.

End DriverProperties.

Lemma ask_games_example :
  refused "7" = true /\ refused "abc" = true
  /\ ask_games_loop ["7"; "abc"; "10"; "PTS"] []
     = (Ok 10%Z, ["PTS"],
        [games_prompt; ("Please enter either 5 or 10." ++ newline)%string;
         games_prompt; ("Invalid input. Please enter a number." ++ newline)%string;
         games_prompt]).
Proof.
  split; [reflexivity | split; [reflexivity |]].
  assert (B : forall line, In line ["7"; "abc"] -> refused line = true)
    by (intros line [<- | [<- | []]]; reflexivity).
  exact (proj2 (ask_games_until_valid ["7"; "abc"] [] B)
           "10" ["PTS"] 10%Z eq_refl (or_intror eq_refl)).
Defined.

Lemma main_retired_example :
  let final := main (profile_provider retired_profile)
                 (set_stat (flags "michael jordan") (Some "PTS"))
                 (Driver.mkWorld ["yes"] [] []) in
  Driver.stdin final = ["yes"]
  /\ last (Driver.stdout final) "" = retired_note "Michael Jordan"
  /\ Driver.requests final
     = [NbaApi.GetPlayers; NbaApi.CommonPlayerInfoCall 893; NbaApi.CommonPlayerInfoCall 893;
        NbaApi.PlayerCareerStatsCall 893].
Proof.
  cbv zeta.
  destruct (main_intro (profile_provider retired_profile)
              (set_stat (flags "michael jordan") (Some "PTS"))
              (Driver.mkWorld ["yes"] [] [])) as [[[args' self] | e] w1] eqn:I;
    [| vm_compute in I; discriminate].
  assert (A : NBAData.is_active self = false)
    by (vm_compute in I; injection I as _ <- _; reflexivity).
  rewrite (proj1 (main_retired _ _ _ _ _ _ I A)).
  vm_compute in I. injection I as _ <- <-. repeat split.
Defined.

Lemma main_declined_example :
  let final := main (profile_provider active_profile) (flags "lebron james")
                 (Driver.mkWorld ["No thanks"; "PTS"] [] []) in
  Driver.stdin final = ["PTS"]
  /\ last (Driver.stdout final) "" = proceed_prompt
  /\ existsb is_game_log (Driver.requests final) = false.
Proof.
  cbv zeta.
  destruct (main_intro (profile_provider active_profile) (flags "lebron james")
              (Driver.mkWorld ["No thanks"; "PTS"] [] [])) as [[[args' self] | e] w1] eqn:I;
    [| vm_compute in I; discriminate].
  assert (A : NBAData.is_active self = true)
    by (vm_compute in I; injection I as _ <- _; reflexivity).
  assert (S : Driver.stdin w1 = ["No thanks"; "PTS"])
    by (vm_compute in I; injection I as _ _ <-; reflexivity).
  rewrite (proj1 (main_declined _ _ _ _ _ _ "No thanks" ["PTS"] I A S
                    ltac:(vm_compute; discriminate))).
  vm_compute in I. injection I as _ _ <-. repeat split.
Defined.

Lemma main_invalid_stat_example :
  let final := main (profile_provider active_profile)
                 (set_games (flags "lebron james") (Some 5%Z))
                 (Driver.mkWorld ["yes"; "points"; "25"] [] []) in
  Driver.stdin final = ["25"]
  /\ last (Driver.stdout final) "" = error_line "'POINTS' is not a valid stat."
  /\ existsb is_game_log (Driver.requests final) = false.
Proof.
  cbv zeta.
  destruct (main_intro (profile_provider active_profile)
              (set_games (flags "lebron james") (Some 5%Z))
              (Driver.mkWorld ["yes"; "points"; "25"] [] [])) as [[[args' self] | e] w1] eqn:I;
    [| vm_compute in I; discriminate].
  assert (A : NBAData.is_active self = true)
    by (vm_compute in I; injection I as _ <- _; reflexivity).
  assert (S : Driver.stdin w1 = ["yes"; "points"; "25"])
    by (vm_compute in I; injection I as _ _ <-; reflexivity).
  rewrite (proj1 (main_invalid_stat _ _ _ _ _ _ "yes" "points" ["25"] 5%Z I A S
                    eq_refl eq_refl ltac:(discriminate) eq_refl)).
  vm_compute in I. injection I as _ _ <-. repeat split.
Defined.

Lemma main_prediction_example :
  let final := main (profile_provider active_profile)
                 (set_threshold (set_games (flags "lebron james") (Some 5%Z))
                    (Some (whole 99)))
                 (Driver.mkWorld ["yes"; " pts "; "25"] [] []) in
  Driver.stdin final = []
  /\ last (Driver.stdout final) ""
     = (newline ++ "Prediction: Lebron James has a 60.0% chance of â‰¥ 25.0 PTS."
        ++ newline)%string
  /\ Driver.requests final
     = [NbaApi.GetPlayers; NbaApi.CommonPlayerInfoCall 2544; NbaApi.CommonPlayerInfoCall 2544;
        NbaApi.PlayerCareerStatsCall 2544; NbaApi.PlayerGameLogCall 2544 "2024-25"].
Proof.
  cbv zeta.
  destruct (main_intro (profile_provider active_profile)
              (set_threshold (set_games (flags "lebron james") (Some 5%Z)) (Some (whole 99)))
              (Driver.mkWorld ["yes"; " pts "; "25"] [] [])) as [[[args' self] | e] w1] eqn:I;
    [| vm_compute in I; discriminate].
  assert (A : NBAData.is_active self = true)
    by (vm_compute in I; injection I as _ <- _; reflexivity).
  assert (S : Driver.stdin w1 = ["yes"; " pts "; "25"])
    by (vm_compute in I; injection I as _ _ <-; reflexivity).
  destruct (NBAData.get_recent_games (profile_provider active_profile) self "2024-25" 5
              (Driver.requests w1)) as [[recent | e] calls] eqn:R;
    [| vm_compute in I; injection I as _ <- <-; vm_compute in R; discriminate].
  destruct (StatFormula.compute
              (StatFormula.init recent (upper (strip " pts ")) (float_of_string "25")))
    as [value | e] eqn:C;
    [| vm_compute in I; injection I as _ <- <-; vm_compute in R; injection R as <- _;
       vm_compute in C; discriminate].
  rewrite (main_prediction _ _ _ _ _ _ "yes" " pts " "25" [] 5%Z recent calls value
             I A S eq_refl eq_refl ltac:(discriminate) eq_refl R C).
  vm_compute in I. injection I as _ <- <-.
  vm_compute in R. injection R as <- <-.
  vm_compute in C. injection C as <-.
  repeat split.
Defined.
